(** * Trial data entry form (app.py): a shallow embedding

    The Streamlit script [app.py] is re-executed top to bottom on every user
    interaction.  One execution (a "run") reads the current widget values,
    mutates [st.session_state], talks to two external services (the Nominatim
    geocoder and the Open-Meteo API) and emits page elements.  A run is
    modelled as a computation in a state-and-exception monad whose state holds
    the session store, the elements rendered so far and the log of external
    calls; a Python exception aborts the run but keeps the state reached.

    What is taken from the libraries the script calls:
    - Streamlit: [st.session_state.k] raises [AttributeError] for a key that
      was never set; [st.text_input] returns a string, [st.date_input] (called
      without [value=None]) a [datetime.date], [st.radio] one of its options;
      a button returns [True] only in the run its click triggered, so at most
      one button is clicked per run; [st.spinner] shows its element while its
      block runs and takes it off the page when the block is left.
    - geopy: [Nominatim.geocode] returns a [Location] (which is truthy),
      returns [None], or raises one of geopy's exceptions.
    - pandas: [pd.date_range] with a fixed frequency follows
      [generate_regular_range] and drops a last value equal to [end] for
      [inclusive="left"]; instants and durations are 64-bit counts of
      nanoseconds, and converting a value outside that range raises
      [OutOfBoundsDatetime] or [OutOfBoundsTimedelta], both recorded here
      under their base class [ValueError] (an overflow inside the range
      arithmetic itself, possible only within an interval of the upper limit,
      is not modelled); [pd.DataFrame] refuses columns of different lengths
      with [ValueError].
    - Open-Meteo: the hourly block gives [Time()], [TimeEnd()], [Interval()]
      and one value array per requested variable; the cache and retry
      sessions of lines 13-15 live inside [weather_api]'s answer. *)

From Stdlib Require Import ZArith List Lia SpecFloat.
From stdpp Require Import base strings gmap list.
Import ListNotations.

Open Scope Z_scope.

(** ** Python data *)

(** Python floats (IEEE-754 doubles), as the Standard Library's [spec_float]. *)
Definition float : Type := spec_float.

(** [datetime.date] *)
Record date := Date { year : Z; month : Z; day : Z }.

(** The [pd.DataFrame] built by [fetch_weather_data]: four parallel columns.
    The [date] column holds UTC instants in nanoseconds since the epoch, the
    unit pandas stores them in. *)
Record DataFrame := mkDataFrame {
  col_date : list Z;
  col_temperature_2m : list float;
  col_cloud_cover : list float;
  col_precipitation : list float
}.

(** Values the script keeps in [st.session_state]. *)
Inductive value :=
| VNone
| VBool (b : bool)
| VFloat (f : float)
| VFrame (df : DataFrame).

(** Python exceptions that can occur in a run. *)
Inductive exn :=
| GeocoderTimedOut
| GeocoderUnavailable
| GeocoderServiceError
| AttributeError (attr : string)
| IndexError
| ValueError
| ZeroDivisionError
| OpenMeteoRequestsError.

Inductive result (A : Type) :=
| Ok (a : A)
| Raise (e : exn).
Arguments Ok {A} a.
Arguments Raise {A} e.

(** ** Page elements *)

(** An f-string: literal text and interpolated values, in order. *)
Inductive part :=
| Lit (s : string)
| Str (s : string)
| DateStr (d : option date)
| Val (v : value).

Inductive element :=
| Title (s : string)
| TextInput (label placeholder : string)
| DateInput (label : string) (min_value : date)
| Radio (label : string) (options : list string)
| Button (label : string)
| Error (msg : string)
| Spinner (msg : string)
| Success (msg : list part)
| Write (msg : list part)
| Map (lat lon : value)
| Dataframe (df : DataFrame)
| DownloadButton (label : string) (csv_of : DataFrame) (file_name mime : string).

(** ** External services *)

(** [geopy.location.Location] *)
Record Location := mkLocation { latitude : float; longitude : float }.

(** The hourly block of an Open-Meteo response: [Time()], [TimeEnd()] and
    [Interval()] in seconds, and [Variables(i).ValuesAsNumpy()] for the
    requested variables (0: temperature_2m, 1: cloud_cover, 2: precipitation). *)
Record Hourly := mkHourly {
  Time : Z;
  TimeEnd : Z;
  Interval : Z;
  Variables : nat -> list float
}.

Inductive call :=
| GeocodeCall (query : string)
| WeatherCall (latitude longitude : value).

(** What the outside world answers during one run.  [geocode] is
    [Nominatim.geocode]: a location, [None] for no match, or an exception.
    [weather_api] is [openmeteo.weather_api] behind its cache and retry
    sessions: the list of responses, or an exception once retries are spent. *)
Record world := mkWorld {
  geocode : string -> result (option Location);
  weather_api : value -> value -> result (list Hourly)
}.

(** ** The run monad *)

Record run := mkRun {
  session : gmap string value;
  screen : list element;
  calls : list call
}.

Definition M (A : Type) : Type := run -> result A * run.

Definition ret {A} (a : A) : M A := fun r => (Ok a, r).

Definition bind {A B} (m : M A) (k : A -> M B) : M B :=
  fun r => match m r with
           | (Ok a, r') => k a r'
           | (Raise e, r') => (Raise e, r')
           end.

Definition raise {A} (e : exn) : M A := fun r => (Raise e, r).

Declare Scope run_scope.
Delimit Scope run_scope with run.
Notation "x <- m ;; k" := (bind m (fun x => k))
  (at level 100, m at next level, right associativity) : run_scope.
Notation "m ;; k" := (bind m (fun _ => k))
  (at level 100, right associativity) : run_scope.
Open Scope run_scope.

(** [try: m except e: h] *)
Definition try_except {A} (m : M A) (catches : exn -> bool) (h : M A) : M A :=
  fun r => match m r with
           | (Raise e, r') => if catches e then h r' else (Raise e, r')
           | ok => ok
           end.

Definition lift {A} (x : result A) : M A := fun r => (x, r).

(** [key in st.session_state] *)
Definition has_key (k : string) : M bool :=
  fun r => (Ok (bool_decide (is_Some (session r !! k))), r).

(** [st.session_state.k]: raises [AttributeError] when the key was never set. *)
Definition get_attr (k : string) : M value :=
  fun r => match session r !! k with
           | Some v => (Ok v, r)
           | None => (Raise (AttributeError k), r)
           end.

(** [st.session_state.k = v] *)
Definition set_attr (k : string) (v : value) : M unit :=
  fun r => (Ok tt, mkRun (<[k := v]> (session r)) (screen r) (calls r)).

Definition render (e : element) : M unit :=
  fun r => (Ok tt, mkRun (session r) (screen r ++ [e]) (calls r)).

Definition log_call (c : call) : M unit :=
  fun r => (Ok tt, mkRun (session r) (screen r) (calls r ++ [c])).

(** [with st.spinner(msg): body]: the spinner is on the page while the body
    runs and is taken off again when the block is left, also when the body
    raises; what the body itself drew stays. *)
Definition with_spinner {A} (msg : string) (body : M A) : M A :=
  fun r =>
    match body (mkRun (session r) (screen r ++ [Spinner msg]) (calls r)) with
    | (res, r') =>
        (res, mkRun (session r') (delete (length (screen r)) (screen r'))
                    (calls r'))
    end.

(** Start a run on a session store, with an empty page and no calls yet. *)
Definition exec {A} (m : M A) (st : gmap string value) : result A * run :=
  m (mkRun st [] []).

(** ** The pandas operations used by [fetch_weather_data] *)

Definition NS_PER_S : Z := 1000000000.

(** The instant [t] seconds after the epoch, in nanoseconds. *)
Definition to_datetime_s (t : Z) : Z := t * NS_PER_S.

(** A duration of [s] seconds, in nanoseconds. *)
Definition Timedelta_seconds (s : Z) : Z := s * NS_PER_S.

(** The nanosecond counts a pandas timestamp or timedelta can hold: 64-bit
    integers, the least one being reserved for NaT. *)
Definition in_bounds (ns : Z) : bool :=
  (- (2 ^ 63 - 1) <=? ns) && (ns <=? 2 ^ 63 - 1).

(** [pd.to_datetime(t, unit="s", utc=True)]; out of bounds it raises
    [OutOfBoundsDatetime], a [ValueError]. *)
Definition to_datetime (t : Z) : result Z :=
  if in_bounds (to_datetime_s t) then Ok (to_datetime_s t) else Raise ValueError.

(** [pd.Timedelta(seconds=s)]; out of bounds it raises
    [OutOfBoundsTimedelta], a [ValueError]. *)
Definition Timedelta (s : Z) : result Z :=
  if in_bounds (Timedelta_seconds s) then Ok (Timedelta_seconds s)
  else Raise ValueError.

(** [np.arange(b, e, stride)] for a non-zero stride: the
    ceil((e - b) / stride) values b, b + stride, ... before e. *)
Definition arange (b e stride : Z) : list Z :=
  map (fun k => b + Z.of_nat k * stride)
      (seq 0 (Z.to_nat (- ((b - e) / stride)))).

(** pandas' [generate_regular_range] for a fixed frequency with both ends
    given; [/] is Python's floor division. *)
Definition generate_regular_range (istart iend stride : Z) : result (list Z) :=
  if stride =? 0 then Raise ZeroDivisionError
  else
    let b := istart in
    let e := b + (iend - b) / stride * stride + stride / 2 + 1 in
    Ok (arange b e stride).

(** [pd.date_range(start, end, freq, inclusive="left")]: the regular range,
    from which a last value equal to [end] is dropped unless start = end. *)
Definition date_range_left (start end_ freq : Z) : result (list Z) :=
  match generate_regular_range start end_ freq with
  | Raise e => Raise e
  | Ok v =>
      if start =? end_ then Ok v
      else if bool_decide (last v = Some end_) then Ok (removelast v)
      else Ok v
  end.

(** [pd.DataFrame(data=hourly_data)]: the four columns must agree in length. *)
Definition make_DataFrame (d : list Z) (t c p : list float) : result DataFrame :=
  if bool_decide (length t = length d /\ length c = length d /\ length p = length d)
  then Ok (mkDataFrame d t c p)
  else Raise ValueError.

Definition nrows (df : DataFrame) : nat := length (col_date df).

(** [df.head()]: the first five rows. *)
Definition head (df : DataFrame) : DataFrame :=
  mkDataFrame (firstn 5 (col_date df)) (firstn 5 (col_temperature_2m df))
              (firstn 5 (col_cloud_cover df)) (firstn 5 (col_precipitation df)).

(** ** app.py, lines 18-60: the two service functions *)

Definition is_GeocoderTimedOut (e : exn) : bool :=
  match e with GeocoderTimedOut => true | _ => false end.

Definition get_coordinates (w : world) (postcode : string) : M (value * value) :=
  try_except
    (log_call (GeocodeCall postcode);;
     location <- lift (geocode w postcode);;
     match location with
     | Some loc => ret (VFloat (latitude loc), VFloat (longitude loc))
     | None => ret (VNone, VNone)
     end)
    is_GeocoderTimedOut
    (ret (VNone, VNone)).

Definition fetch_weather_data (w : world) (latitude longitude : value) : M DataFrame :=
  log_call (WeatherCall latitude longitude);;
  responses <- lift (weather_api w latitude longitude);;
  response <- match responses with
              | r :: _ => ret r
              | [] => raise IndexError
              end;;
  let hourly := response in
  let hourly_temperature := Variables hourly 0 in
  let hourly_cloud_cover := Variables hourly 1 in
  let hourly_precipitation := Variables hourly 2 in
  start <- lift (to_datetime (Time hourly));;
  end_ <- lift (to_datetime (TimeEnd hourly));;
  freq <- lift (Timedelta (Interval hourly));;
  dates <- lift (date_range_left start end_ freq);;
  lift (make_DataFrame dates hourly_temperature hourly_cloud_cover
                       hourly_precipitation).

(** ** app.py, lines 63-127: the page script *)

(** Python truth value of a stored value, as [if st.session_state.submitted:]
    takes it; a DataFrame has no truth value. *)
Definition is_zero (f : float) : bool :=
  match f with S754_zero _ => true | _ => false end.

Definition truthy (v : value) : result bool :=
  match v with
  | VNone => Ok false
  | VBool b => Ok b
  | VFloat f => Ok (negb (is_zero f))
  | VFrame _ => Raise ValueError
  end.

Definition truth (v : value) : M bool := lift (truthy v).

(** [x is not None] *)
Definition is_not_None (v : value) : bool :=
  match v with VNone => false | _ => true end.

(** [not s] for a string, [not d] for a date or [None]. *)
Definition not_str (s : string) : bool := String.eqb s "".
Definition not_date (d : option date) : bool :=
  match d with None => true | Some _ => false end.

(** What the user did to trigger this run: at most one button is clicked. *)
Inductive action := NoAction | ClickSubmit | ClickReset.

(** [st.button(label)]: draws the button, tells whether it was clicked. *)
Definition button (label : string) (clicked : bool) : M bool :=
  render (Button label);; ret clicked.

Definition is_submit (a : action) : bool :=
  match a with ClickSubmit => true | _ => false end.
Definition is_reset (a : action) : bool :=
  match a with ClickReset => true | _ => false end.

Definition err_trial_name : string := "❌ Please enter a **Trial Name**.".
Definition err_start_date : string := "❌ Please select a **Trial Start Date**.".
Definition err_end_date : string := "❌ Please select a **Trial End Date**.".
Definition err_postcode : string := "❌ Please enter a **Location (Postcode)**.".

(** Lines 63-66. *)
Definition init_session : M unit :=
  b <- has_key "submitted";;
  (if negb b then set_attr "submitted" (VBool false) else ret tt);;
  b <- has_key "weather_data";;
  (if negb b then set_attr "weather_data" VNone else ret tt).

(** Lines 96-107: what the handler does once validation has passed. *)
Definition accept (w : world) (postcode add_weather : string) : M unit :=
  set_attr "submitted" (VBool true);;
  ll <- get_coordinates w postcode;;
  let '(lat, lon) := ll in
  if is_not_None lat && is_not_None lon then
    set_attr "lat" lat;;
    set_attr "lon" lon;;
    if String.eqb add_weather "Yes" then
      df <- with_spinner "Fetching weather data..."
                         (fetch_weather_data w lat lon);;
      set_attr "weather_data" (VFrame df)
    else ret tt
  else ret tt.

(** Lines 87-107: the body of [if st.button("Submit Trial Info"):]. *)
Definition submit_handler (w : world) (trial_name : string)
    (trial_start_date trial_end_date : option date)
    (postcode add_weather : string) : M unit :=
  if not_str trial_name then render (Error err_trial_name)
  else if not_date trial_start_date then render (Error err_start_date)
  else if not_date trial_end_date then render (Error err_end_date)
  else if not_str postcode then render (Error err_postcode)
  else accept w postcode add_weather.

(** Lines 117-123: the weather preview and the download button. *)
Definition weather_section (add_weather : string) : M unit :=
  if String.eqb add_weather "Yes" then
    wd <- get_attr "weather_data";;
    if is_not_None wd then
      render (Write [Lit "**Weather Data Sample (hourly):**"]);;
      wd <- get_attr "weather_data";;
      match wd with
      | VFrame df =>
          render (Dataframe (head df));;
          wd <- get_attr "weather_data";;
          match wd with
          | VFrame df =>
              render (DownloadButton "📥 Download Full Weather Data" df
                                     "weather_data.csv" "text/csv")
          | _ => raise (AttributeError "to_csv")
          end
      | _ => raise (AttributeError "head")
      end
    else ret tt
  else ret tt.

(** Lines 110-127: the summary shown while [submitted] holds. *)
Definition summary (trial_name : string)
    (trial_start_date trial_end_date : option date)
    (add_weather : string) (a : action) : M unit :=
  s <- get_attr "submitted";;
  b <- truth s;;
  if b then
    render (Success [Lit "✅ Trial '"; Str trial_name;
                     Lit "' recorded successfully!"]);;
    render (Write [Lit "**Start Date:** "; DateStr trial_start_date]);;
    render (Write [Lit "**End Date:** "; DateStr trial_end_date]);;
    lat <- get_attr "lat";;
    lon <- get_attr "lon";;
    render (Write [Lit "**Location Coordinates:** "; Val lat; Lit ", "; Val lon]);;
    lat <- get_attr "lat";;
    lon <- get_attr "lon";;
    render (Map lat lon);;
    weather_section add_weather;;
    clicked <- button "🔄 Reset form" (is_reset a);;
    if clicked then set_attr "submitted" (VBool false) else ret tt
  else ret tt.

(** Lines 85-127, for given widget values. *)
Definition page (w : world) (trial_name : string)
    (trial_start_date trial_end_date : option date)
    (postcode add_weather : string) (a : action) : M unit :=
  clicked <- button "Submit Trial Info" (is_submit a);;
  (if clicked then
     submit_handler w trial_name trial_start_date trial_end_date
                    postcode add_weather
   else ret tt);;
  summary trial_name trial_start_date trial_end_date add_weather a.

(** ** The widgets (lines 69-82) and the whole script *)

Inductive choice := No | Yes.

(** What the widgets hold when a run starts. *)
Record widgets := mkWidgets {
  w_trial_name : string;
  w_start_date : date;
  w_end_date : date;
  w_postcode : string;
  w_add_weather : choice;
  w_action : action
}.

(** [st.text_input] returns the text typed so far (possibly empty). *)
Definition text_input (label placeholder current : string) : M string :=
  render (TextInput label placeholder);; ret current.

(** [st.date_input] without [value=None] always returns a [datetime.date]. *)
Definition date_input (label : string) (min_value current : date) : M date :=
  render (DateInput label min_value);; ret current.

(** [st.radio] returns the selected option. *)
Definition radio (label : string) (options : list string) (sel : nat) : M string :=
  render (Radio label options);; ret (nth sel options "").

Definition choice_index (c : choice) : nat :=
  match c with No => 0%nat | Yes => 1%nat end.

Definition app (w : world) (u : widgets) : M unit :=
  init_session;;
  render (Title "Trial Data Entry Form");;
  trial_name <- text_input "Enter the Trial Name" "e.g. Greenhouse Test A"
                           (w_trial_name u);;
  trial_start_date <- date_input "📅 Select Trial Start Date" (Date 2000 1 1)
                                 (w_start_date u);;
  trial_end_date <- date_input "📅 Select Trial End Date" trial_start_date
                               (w_end_date u);;
  postcode <- text_input "Enter the Postcode" "e.g. BS1 1AA (UK)" (w_postcode u);;
  add_weather <- radio "Would you like to add weather data from open meteo?"
                       ["No"; "Yes"] (choice_index (w_add_weather u));;
  page w trial_name (Some trial_start_date) (Some trial_end_date)
       postcode add_weather (w_action u).

(** The session store a run leaves behind, for the next run to start from. *)
Definition step (w : world) (u : widgets) (st : gmap string value)
  : gmap string value :=
  session (snd (exec (app w u) st)).

(** Stores a session can be in between two runs: empty at session start,
    then whatever each run leaves, whether it completed or raised. *)
Inductive reachable : gmap string value -> Prop :=
| reach_start : reachable ∅
| reach_step w u st : reachable st -> reachable (step w u st).

(** ** Reference descriptions used by the statements below *)

(** The error messages on a page, in the order they were rendered. *)
Definition errors_shown (scr : list element) : list string :=
  omap (fun e => match e with Error m => Some m | _ => None end) scr.

(** The required fields in the order the form lists them, each with whether
    it is missing and the message that reports it. *)
Definition required_fields (trial_name : string) (sd ed : option date)
    (postcode : string) : list (bool * string) :=
  [ (bool_decide (trial_name = ""), err_trial_name);
    (bool_decide (sd = None), err_start_date);
    (bool_decide (ed = None), err_end_date);
    (bool_decide (postcode = ""), err_postcode) ].

Definition first_missing (trial_name : string) (sd ed : option date)
    (postcode : string) : option string :=
  snd <$> find fst (required_fields trial_name sd ed postcode).

(** The result of [fetch_weather_data], apart from its effects. *)
Definition fetched (w : world) (lat lon : value) : result DataFrame :=
  fst (exec (fetch_weather_data w lat lon) ∅).

(** The result of [get_coordinates], apart from its effects. *)
Definition located (w : world) (postcode : string) : result (value * value) :=
  fst (exec (get_coordinates w postcode) ∅).

(** The weather table a store holds, if any. *)
Definition weather_of (st : gmap string value) : option DataFrame :=
  match st !! "weather_data" with
  | Some (VFrame df) => Some df
  | _ => None
  end.

(** The summary's weather block is on the page. *)
Definition weather_shown (scr : list element) : Prop :=
  exists df, In (Dataframe (head df)) scr /\
             In (DownloadButton "📥 Download Full Weather Data" df
                                "weather_data.csv" "text/csv") scr.

(** The transition a valid or invalid submit makes on the session store. *)
Inductive submit_outcome (w : world) (trial_name : string)
    (sd ed : option date) (postcode add_weather : string)
    (s : gmap string value) : gmap string value -> Prop :=
| Rejected :
    trial_name = "" \/ sd = None \/ ed = None \/ postcode = "" ->
    submit_outcome w trial_name sd ed postcode add_weather s s
| Unresolved :
    first_missing trial_name sd ed postcode = None ->
    (forall loc, geocode w postcode <> Ok (Some loc)) ->
    submit_outcome w trial_name sd ed postcode add_weather s
      (<["submitted" := VBool true]> s)
| Located loc :
    first_missing trial_name sd ed postcode = None ->
    geocode w postcode = Ok (Some loc) ->
    add_weather <> "Yes" \/
      (exists e, fetched w (VFloat (latitude loc)) (VFloat (longitude loc)) = Raise e) ->
    submit_outcome w trial_name sd ed postcode add_weather s
      (<["lon" := VFloat (longitude loc)]>
         (<["lat" := VFloat (latitude loc)]>
            (<["submitted" := VBool true]> s)))
| WithWeather loc df :
    first_missing trial_name sd ed postcode = None ->
    geocode w postcode = Ok (Some loc) ->
    add_weather = "Yes" ->
    fetched w (VFloat (latitude loc)) (VFloat (longitude loc)) = Ok df ->
    submit_outcome w trial_name sd ed postcode add_weather s
      (<["weather_data" := VFrame df]>
         (<["lon" := VFloat (longitude loc)]>
            (<["lat" := VFloat (latitude loc)]>
               (<["submitted" := VBool true]> s)))).

(** The elements the summary opens with (lines 111-113). *)
Definition banner (trial_name : string) (sd ed : option date) : list element :=
  [ Success [Lit "✅ Trial '"; Str trial_name; Lit "' recorded successfully!"];
    Write [Lit "**Start Date:** "; DateStr sd];
    Write [Lit "**End Date:** "; DateStr ed] ].

(** The coordinates line and the map (lines 114-115). *)
Definition coordinates_block (lat lon : value) : list element :=
  [ Write [Lit "**Location Coordinates:** "; Val lat; Lit ", "; Val lon];
    Map lat lon ].

(** The weather preview and download button (lines 118-123). *)
Definition weather_block (df : DataFrame) : list element :=
  [ Write [Lit "**Weather Data Sample (hourly):**"];
    Dataframe (head df);
    DownloadButton "📥 Download Full Weather Data" df
                   "weather_data.csv" "text/csv" ].

(** The input widgets of the form (lines 69-82). *)
Definition form (u : widgets) : list element :=
  [ Title "Trial Data Entry Form";
    TextInput "Enter the Trial Name" "e.g. Greenhouse Test A";
    DateInput "📅 Select Trial Start Date" (Date 2000 1 1);
    DateInput "📅 Select Trial End Date" (w_start_date u);
    TextInput "Enter the Postcode" "e.g. BS1 1AA (UK)";
    Radio "Would you like to add weather data from open meteo?" ["No"; "Yes"] ].

(** The text of the selected radio option. *)
Definition choice_label (c : choice) : string :=
  match c with No => "No" | Yes => "Yes" end.

(** The store after lines 63-66. *)
Definition initialised (st : gmap string value) : gmap string value :=
  let st1 := match st !! "submitted" with
             | Some _ => st
             | None => <["submitted" := VBool false]> st
             end in
  match st1 !! "weather_data" with
  | Some _ => st1
  | None => <["weather_data" := VNone]> st1
  end.

(** Page elements other than error messages. *)
Definition not_Error (e : element) : Prop :=
  match e with Error _ => False | _ => True end.

(** The elements only the summary draws (lines 111-123). *)
Definition is_summary_element (e : element) : bool :=
  match e with
  | Success _ | Write _ | Map _ _ | Dataframe _ | DownloadButton _ _ _ _ => true
  | _ => false
  end.

Definition summary_part (scr : list element) : list element :=
  List.filter is_summary_element scr.

(** What the summary adds to the page, read off the store it runs on. *)
Definition summary_elements (trial_name : string) (sd ed : option date)
    (add_weather : string) (s : gmap string value) : list element :=
  match s !! "submitted" with
  | Some v =>
      match truthy v with
      | Ok true =>
          banner trial_name sd ed ++
          match s !! "lat", s !! "lon" with
          | Some lat, Some lon =>
              coordinates_block lat lon ++
              if String.eqb add_weather "Yes" then
                match s !! "weather_data" with
                | Some (VFrame df) => weather_block df
                | Some VNone | None => []
                | Some _ => [Write [Lit "**Weather Data Sample (hourly):**"]]
                end
              else []
          | _, _ => []
          end
      | _ => []
      end
  | None => []
  end.

(** Whenever a weather table is stored, coordinates are stored too. *)
Definition coordinates_kept (st : gmap string value) : Prop :=
  forall df, st !! "weather_data" = Some (VFrame df) ->
             is_Some (st !! "lat") /\ is_Some (st !! "lon").

(** The rows [pd.date_range] is expected to give for a response with a
    positive interval: ceil((end - start) / interval) of them, the k-th at
    start + k * interval. *)
Definition expected_rows (h : Hourly) : nat :=
  Z.to_nat (- ((Time h - TimeEnd h) / Interval h)).

(** The window and the interval of a response fit pandas' range. *)
Definition window_in_bounds (h : Hourly) : bool :=
  in_bounds (to_datetime_s (Time h)) && in_bounds (to_datetime_s (TimeEnd h))
  && in_bounds (Timedelta_seconds (Interval h)).

Definition expected_dates (h : Hourly) : list Z :=
  map (fun k => to_datetime_s (Time h + Z.of_nat k * Interval h))
      (seq 0 (expected_rows h)).

(** ** Sample inputs *)

(** The doubles 51.45 and -2.59 (Bristol), 12.5 and 80.0. *)
Definition f_51_45 : float := S754_finite false 7240943775881626 (-47).
Definition f_m2_59 : float := S754_finite true 5832161517444792 (-51).
Definition f_12_5 : float := S754_finite false 7036874417766400 (-49).
Definition f_80 : float := S754_finite false 5629499534213120 (-46).

(** A two-day hourly forecast starting 2024-01-01T00:00:00Z. *)
Definition two_days : Hourly :=
  mkHourly 1704067200 1704240000 3600
           (fun i => repeat (match i with 1%nat => f_80 | _ => f_12_5 end) 48).

(** A response whose window is not a whole number of intervals. *)
Definition ragged : Hourly :=
  mkHourly 0 10 3 (fun _ => repeat f_12_5 4).

(** The geocoder knows "BS1 1AA" only; the weather service answers. *)
Definition bristol_world : world :=
  mkWorld (fun q => if String.eqb q "BS1 1AA"
                    then Ok (Some (mkLocation f_51_45 f_m2_59))
                    else Ok None)
          (fun _ _ => Ok [two_days]).

(** The geocoder times out. *)
Definition timeout_world : world :=
  mkWorld (fun _ => Raise GeocoderTimedOut) (fun _ _ => Ok [two_days]).

(** The geocoder is unreachable. *)
Definition offline_world : world :=
  mkWorld (fun _ => Raise GeocoderUnavailable)
          (fun _ _ => Raise OpenMeteoRequestsError).

(** The weather service answers with the ragged window. *)
Definition ragged_world : world :=
  mkWorld (fun _ => Ok (Some (mkLocation f_51_45 f_m2_59)))
          (fun _ _ => Ok [ragged]).

Definition greenhouse (postcode : string) (c : choice) (a : action) : widgets :=
  mkWidgets "Greenhouse Test A" (Date 2024 1 1) (Date 2024 1 10) postcode c a.

(** The store after "Greenhouse Test A" was submitted for "BS1 1AA" on a
    fresh session, with and without weather. *)
Definition submitted_store (c : choice) : gmap string value :=
  step bristol_world (greenhouse "BS1 1AA" c ClickSubmit) ∅.

(** A computation that leaves an observation [f] of the run unchanged. *)
Definition preserves {A S} (f : run -> S) (m : M A) : Prop :=
  forall r, f (snd (m r)) = f r.

(** ** Well-formed session stores *)

(** A table whose four columns have the same number of entries. *)
Definition rectangular (df : DataFrame) : Prop :=
  length (col_temperature_2m df) = nrows df /\
  length (col_cloud_cover df) = nrows df /\
  length (col_precipitation df) = nrows df.

(** The types the script's keys hold: [submitted] a bool, [weather_data]
    [None] or a rectangular table, [lat] and [lon] floats that are set
    together. *)
Definition session_ok (st : gmap string value) : Prop :=
  (forall v, st !! "submitted" = Some v -> exists b, v = VBool b) /\
  (forall v, st !! "weather_data" = Some v ->
             v = VNone \/ exists df, v = VFrame df /\ rectangular df) /\
  (forall v, st !! "lat" = Some v -> exists f, v = VFloat f) /\
  (forall v, st !! "lon" = Some v -> exists f, v = VFloat f) /\
  (is_Some (st !! "lat") <-> is_Some (st !! "lon")).

(** Lines 63-66 have run at least once on this store. *)
Definition started (st : gmap string value) : Prop :=
  is_Some (st !! "submitted") /\ is_Some (st !! "weather_data").

(** All required fields of the form are filled in. *)
Definition filled_in (u : widgets) : Prop :=
  w_trial_name u <> "" /\ w_postcode u <> "".

(** The geocoder knows "BS1 1AA"; the weather service is down. *)
Definition stormy_world : world :=
  mkWorld (geocode bristol_world) (fun _ _ => Raise OpenMeteoRequestsError).

(** The table [fetch_weather_data] builds from [two_days]. *)
Definition two_days_table : DataFrame :=
  mkDataFrame (expected_dates two_days) (Variables two_days 0)
              (Variables two_days 1) (Variables two_days 2).

(** The keys the script ever writes. *)
Definition script_keys : list string :=
  ["submitted"; "weather_data"; "lat"; "lon"].

(** ** The run monad: how effects compose *)

Lemma bind_run {A B} (m : M A) (k : A -> M B) r :
  bind m k r = match m r with
               | (Ok a, r') => k a r'
               | (Raise e, r') => (Raise e, r')
               end.
Proof. reflexivity. Qed.

Lemma preserves_ret {A S} (f : run -> S) (a : A) : preserves f (ret a).
Proof. intros r. reflexivity. Qed.

Lemma preserves_raise {A S} (f : run -> S) e : preserves f (@raise A e).
Proof. intros r. reflexivity. Qed.

Lemma preserves_lift {A S} (f : run -> S) (x : result A) : preserves f (lift x).
Proof. intros r. reflexivity. Qed.

Lemma preserves_bind {A B S} (f : run -> S) (m : M A) (k : A -> M B) :
  preserves f m -> (forall a, preserves f (k a)) -> preserves f (bind m k).
Proof.
  intros Hm Hk r. rewrite bind_run. specialize (Hm r).
  destruct (m r) as [[a|e] r']; simpl in *.
  - rewrite Hk. exact Hm.
  - exact Hm.
Qed.

Lemma preserves_try {A S} (f : run -> S) (m h : M A) c :
  preserves f m -> preserves f h -> preserves f (try_except m c h).
Proof.
  intros Hm Hh r. unfold try_except. specialize (Hm r).
  destruct (m r) as [[a|e] r']; simpl in *; [exact Hm|].
  destruct (c e); simpl; [rewrite Hh|]; exact Hm.
Qed.

Lemma preserves_get_attr {S} (f : run -> S) k : preserves f (get_attr k).
Proof. intros r. unfold get_attr. destruct (session r !! k); reflexivity. Qed.

Lemma preserves_has_key {S} (f : run -> S) k : preserves f (has_key k).
Proof. intros r. reflexivity. Qed.

Lemma preserves_truth {S} (f : run -> S) v : preserves f (truth v).
Proof. intros r. reflexivity. Qed.

Lemma render_session e : preserves session (render e).
Proof. intros r. reflexivity. Qed.

Lemma render_calls e : preserves calls (render e).
Proof. intros r. reflexivity. Qed.

Lemma log_call_session c : preserves session (log_call c).
Proof. intros r. reflexivity. Qed.

Lemma log_call_screen c : preserves screen (log_call c).
Proof. intros r. reflexivity. Qed.

Lemma set_attr_calls k v : preserves calls (set_attr k v).
Proof. intros r. reflexivity. Qed.

Lemma set_attr_screen k v : preserves screen (set_attr k v).
Proof. intros r. reflexivity. Qed.

Lemma set_attr_other k v k' :
  k <> k' -> preserves (fun r => session r !! k') (set_attr k v).
Proof. intros Hne r. simpl. by rewrite lookup_insert_ne. Qed.

Lemma errors_shown_app scr1 scr2 :
  errors_shown (scr1 ++ scr2) = errors_shown scr1 ++ errors_shown scr2.
Proof. unfold errors_shown. apply omap_app. Qed.

Lemma render_errors e :
  not_Error e -> preserves (fun r => errors_shown (screen r)) (render e).
Proof.
  intros He r. simpl. rewrite errors_shown_app.
  destruct e; simpl in *; try contradiction; apply app_nil_r.
Qed.

Lemma set_attr_errors k v :
  preserves (fun r => errors_shown (screen r)) (set_attr k v).
Proof. intros r. reflexivity. Qed.

Lemma log_call_errors c :
  preserves (fun r => errors_shown (screen r)) (log_call c).
Proof. intros r. reflexivity. Qed.

Lemma render_lookup k e : preserves (fun r => session r !! k) (render e).
Proof. intros r. reflexivity. Qed.

Lemma log_call_lookup k c : preserves (fun r => session r !! k) (log_call c).
Proof. intros r. reflexivity. Qed.

Lemma summary_part_app scr1 scr2 :
  summary_part (scr1 ++ scr2) = summary_part scr1 ++ summary_part scr2.
Proof. apply List.filter_app. Qed.

Lemma render_plain e :
  is_summary_element e = false ->
  preserves (fun r => summary_part (screen r)) (render e).
Proof.
  intros He r. simpl. rewrite summary_part_app. simpl. rewrite He.
  apply app_nil_r.
Qed.

Lemma set_attr_plain k v :
  preserves (fun r => summary_part (screen r)) (set_attr k v).
Proof. intros r. reflexivity. Qed.

Lemma log_call_plain c :
  preserves (fun r => summary_part (screen r)) (log_call c).
Proof. intros r. reflexivity. Qed.

Create HintDb frame discriminated.
#[export] Hint Resolve preserves_ret preserves_raise preserves_lift
  preserves_get_attr preserves_has_key preserves_truth render_session
  render_calls log_call_session log_call_screen set_attr_calls
  set_attr_screen : frame.

(** Breaks a composite computation into its primitive steps. *)
Ltac frame_step :=
  match goal with
  | |- preserves _ (bind _ _) => apply preserves_bind; [| intros ?]
  | |- preserves _ (try_except _ _ _) => apply preserves_try
  | |- preserves _ (let '(_, _) := ?p in _) => destruct p
  | |- preserves _ (if ?b then _ else _) => destruct b
  | |- preserves _ (match ?x with _ => _ end) => destruct x
  | |- preserves _ (set_attr _ _) =>
      first [ apply set_attr_calls | apply set_attr_screen
            | apply set_attr_errors | apply set_attr_plain
            | apply set_attr_other; first [discriminate | congruence] ]
  | |- preserves _ (render _) =>
      first [ apply render_session | apply render_calls | apply render_lookup
            | apply render_errors; exact I
            | apply render_plain; reflexivity ]
  | |- preserves _ (log_call _) =>
      first [ apply log_call_session | apply log_call_screen
            | apply log_call_lookup | apply log_call_errors
            | apply log_call_plain ]
  | |- preserves _ (button _ _) => unfold button
  | |- preserves _ (get_coordinates _ _) => unfold get_coordinates
  | |- preserves _ (fetch_weather_data _ _ _) => unfold fetch_weather_data
  | |- preserves _ (weather_section _) => unfold weather_section
  | |- preserves _ _ => solve [auto with frame]
  end.
Ltac frame := repeat frame_step.

(** ** The service functions: result and effects apart *)

Lemma get_coordinates_run w postcode r :
  get_coordinates w postcode r =
  (located w postcode,
   mkRun (session r) (screen r) (calls r ++ [GeocodeCall postcode])).
Proof.
  unfold located, exec, get_coordinates, try_except, bind, log_call, lift, ret.
  simpl. destruct (geocode w postcode) as [[loc|]|e]; simpl; try reflexivity.
  destruct e; reflexivity.
Qed.

Lemma located_cases w postcode :
  located w postcode =
  match geocode w postcode with
  | Ok (Some loc) => Ok (VFloat (latitude loc), VFloat (longitude loc))
  | Ok None => Ok (VNone, VNone)
  | Raise GeocoderTimedOut => Ok (VNone, VNone)
  | Raise e => Raise e
  end.
Proof.
  unfold located, exec, get_coordinates, try_except, bind, log_call, lift, ret.
  simpl. destruct (geocode w postcode) as [[loc|]|e]; simpl; try reflexivity.
  destruct e; reflexivity.
Qed.

Lemma fetch_weather_data_run w lat lon r :
  fetch_weather_data w lat lon r =
  (fetched w lat lon,
   mkRun (session r) (screen r) (calls r ++ [WeatherCall lat lon])).
Proof.
  unfold fetched, exec, fetch_weather_data, bind, log_call, lift, ret, raise.
  simpl. destruct (weather_api w lat lon) as [[|h rest]|e]; simpl; try reflexivity.
  destruct (to_datetime (Time h)); simpl; [|reflexivity].
  destruct (to_datetime (TimeEnd h)); simpl; [|reflexivity].
  destruct (Timedelta (Interval h)); simpl; [|reflexivity].
  destruct (date_range_left _ _ _); simpl; reflexivity.
Qed.

Lemma fetched_cases w lat lon :
  fetched w lat lon =
  match weather_api w lat lon with
  | Raise e => Raise e
  | Ok [] => Raise IndexError
  | Ok (h :: _) =>
      match to_datetime (Time h) with
      | Raise e => Raise e
      | Ok a =>
          match to_datetime (TimeEnd h) with
          | Raise e => Raise e
          | Ok b =>
              match Timedelta (Interval h) with
              | Raise e => Raise e
              | Ok s =>
                  match date_range_left a b s with
                  | Raise e => Raise e
                  | Ok d => make_DataFrame d (Variables h 0) (Variables h 1)
                                           (Variables h 2)
                  end
              end
          end
      end
  end.
Proof.
  unfold fetched, exec, fetch_weather_data, bind, log_call, lift, ret, raise.
  simpl. destruct (weather_api w lat lon) as [[|h rest]|e]; simpl; try reflexivity.
  destruct (to_datetime (Time h)); simpl; [|reflexivity].
  destruct (to_datetime (TimeEnd h)); simpl; [|reflexivity].
  destruct (Timedelta (Interval h)); simpl; [|reflexivity].
  destruct (date_range_left _ _ _); simpl; reflexivity.
Qed.

Lemma not_str_true s : not_str s = true <-> s = "".
Proof. unfold not_str. apply String.eqb_eq. Qed.

Lemma not_str_false s : not_str s = false <-> s <> "".
Proof. unfold not_str. apply String.eqb_neq. Qed.

Lemma first_missing_None name sd ed pc :
  first_missing name sd ed pc = None <->
  name <> "" /\ sd <> None /\ ed <> None /\ pc <> "".
Proof.
  unfold first_missing, required_fields. simpl.
  repeat case_bool_decide; simpl; split; intros Hx; try discriminate;
    try tauto; repeat split; auto.
Qed.

Lemma first_missing_Some name sd ed pc :
  name = "" \/ sd = None \/ ed = None \/ pc = "" ->
  exists m, first_missing name sd ed pc = Some m.
Proof.
  intros H. destruct (first_missing name sd ed pc) as [m|] eqn:E; [eauto|].
  apply first_missing_None in E. tauto.
Qed.

Lemma submit_handler_cases w name sd ed pc aw :
  submit_handler w name sd ed pc aw =
  match first_missing name sd ed pc with
  | Some m => render (Error m)
  | None => accept w pc aw
  end.
Proof.
  unfold submit_handler, first_missing, required_fields, not_str. simpl.
  destruct (String.eqb_spec name "") as [->|Hn].
  { rewrite bool_decide_eq_true_2 by done. reflexivity. }
  rewrite (bool_decide_eq_false_2 (name = "")) by done. simpl.
  destruct sd as [d1|]; simpl; [|reflexivity].
  destruct ed as [d2|]; simpl; [|reflexivity].
  destruct (String.eqb_spec pc "") as [->|Hp].
  { reflexivity. }
  rewrite (bool_decide_eq_false_2 (pc = "")) by done. reflexivity.
Qed.

(** ** One run, block by block *)

Lemma bind_render {B} e (k : unit -> M B) s scr c :
  bind (render e) k (mkRun s scr c) = k tt (mkRun s (scr ++ [e]) c).
Proof. reflexivity. Qed.

Lemma bind_set {B} key v (k : unit -> M B) s scr c :
  bind (set_attr key v) k (mkRun s scr c) = k tt (mkRun (<[key := v]> s) scr c).
Proof. reflexivity. Qed.

Lemma bind_lift {A B} (x : result A) (k : A -> M B) r :
  bind (lift x) k r = match x with Ok a => k a r | Raise e => (Raise e, r) end.
Proof. reflexivity. Qed.

Lemma bind_get {B} key (k : value -> M B) s scr c v :
  s !! key = Some v ->
  bind (get_attr key) k (mkRun s scr c) = k v (mkRun s scr c).
Proof. intros H. unfold bind, get_attr. cbn [session]. by rewrite H. Qed.

Lemma bind_get_None {B} key (k : value -> M B) s scr c :
  s !! key = None ->
  bind (get_attr key) k (mkRun s scr c) =
  (Raise (AttributeError key), mkRun s scr c).
Proof. intros H. unfold bind, get_attr. cbn [session]. by rewrite H. Qed.

Lemma with_spinner_fetch w lat lon msg r :
  with_spinner msg (fetch_weather_data w lat lon) r =
  (fetched w lat lon,
   mkRun (session r) (screen r) (calls r ++ [WeatherCall lat lon])).
Proof.
  unfold with_spinner. rewrite fetch_weather_data_run.
  cbn [session screen calls]. f_equal. f_equal.
  rewrite delete_middle. apply app_nil_r.
Qed.

Lemma accept_run w pc aw r :
  accept w pc aw r =
  let r1 := mkRun (<["submitted" := VBool true]> (session r)) (screen r)
                  (calls r ++ [GeocodeCall pc]) in
  match located w pc with
  | Raise e => (Raise e, r1)
  | Ok (lat, lon) =>
      if is_not_None lat && is_not_None lon then
        let s2 := <["lon" := lon]> (<["lat" := lat]> (session r1)) in
        if String.eqb aw "Yes" then
          let cs := calls r1 ++ [WeatherCall lat lon] in
          match fetched w lat lon with
          | Ok df =>
              (Ok tt, mkRun (<["weather_data" := VFrame df]> s2) (screen r) cs)
          | Raise e => (Raise e, mkRun s2 (screen r) cs)
          end
        else (Ok tt, mkRun s2 (screen r) (calls r1))
      else (Ok tt, r1)
  end.
Proof.
  unfold accept. rewrite bind_run. unfold set_attr at 1. cbv beta iota.
  rewrite bind_run, get_coordinates_run. cbv zeta. simpl session. simpl screen.
  simpl calls. destruct (located w pc) as [[lat lon]|e]; [|reflexivity].
  destruct (is_not_None lat && is_not_None lon); [|reflexivity].
  unfold set_attr at 1 2. unfold bind at 1 2. simpl session. simpl screen.
  simpl calls. destruct (String.eqb aw "Yes"); [|reflexivity].
  rewrite bind_run, with_spinner_fetch. cbn [session screen calls].
  destruct (fetched w lat lon); reflexivity.
Qed.

Lemma accept_screen w pc aw r : screen (snd (accept w pc aw r)) = screen r.
Proof.
  rewrite accept_run. cbv zeta. destruct (located w pc) as [[lat lon]|e];
    [|reflexivity].
  destruct (is_not_None lat && is_not_None lon); [|reflexivity].
  destruct (String.eqb aw "Yes"); [|reflexivity].
  destruct (fetched w lat lon); reflexivity.
Qed.

Lemma weather_section_run aw r :
  weather_section aw r =
  if String.eqb aw "Yes" then
    match session r !! "weather_data" with
    | None => (Raise (AttributeError "weather_data"), r)
    | Some VNone => (Ok tt, r)
    | Some (VFrame df) =>
        (Ok tt, mkRun (session r) (screen r ++ weather_block df) (calls r))
    | Some _ =>
        (Raise (AttributeError "head"),
         mkRun (session r)
               (screen r ++ [Write [Lit "**Weather Data Sample (hourly):**"]])
               (calls r))
    end
  else (Ok tt, r).
Proof.
  unfold weather_section. destruct (String.eqb aw "Yes"); [|reflexivity].
  unfold bind, get_attr, render, ret, raise. simpl session.
  destruct (session r !! "weather_data") as [[| b | f | df]|] eqn:E;
    simpl; repeat (rewrite E; simpl); try reflexivity.
  unfold weather_block. rewrite <- !app_assoc. reflexivity.
Qed.

Lemma summary_run name sd ed aw a r :
  summary name sd ed aw a r =
  match session r !! "submitted" with
  | None => (Raise (AttributeError "submitted"), r)
  | Some v =>
      match truthy v with
      | Raise e => (Raise e, r)
      | Ok false => (Ok tt, r)
      | Ok true =>
          let r1 := mkRun (session r) (screen r ++ banner name sd ed) (calls r) in
          match session r !! "lat", session r !! "lon" with
          | Some lat, Some lon =>
              let r2 := mkRun (session r)
                              (screen r1 ++ coordinates_block lat lon) (calls r) in
              match weather_section aw r2 with
              | (Raise e, r3) => (Raise e, r3)
              | (Ok _, r3) =>
                  (Ok tt,
                   mkRun (if is_reset a
                          then <["submitted" := VBool false]> (session r3)
                          else session r3)
                         (screen r3 ++ [Button "🔄 Reset form"]) (calls r3))
              end
          | None, _ => (Raise (AttributeError "lat"), r1)
          | Some _, None => (Raise (AttributeError "lon"), r1)
          end
      end
  end.
Proof.
  destruct r as [s scr c]. unfold summary. cbn [session screen calls].
  destruct (s !! "submitted") as [v|] eqn:Esub;
    [rewrite (bind_get _ _ _ _ _ _ Esub) | by rewrite bind_get_None].
  unfold truth. rewrite bind_lift.
  destruct (truthy v) as [[|]|e]; try reflexivity.
  rewrite !bind_render.
  replace (((scr ++ _) ++ _) ++ _) with (scr ++ banner name sd ed)
    by (unfold banner; rewrite <- !app_assoc; reflexivity).
  destruct (s !! "lat") as [lat|] eqn:Elat;
    [rewrite (bind_get _ _ _ _ _ _ Elat) | by rewrite bind_get_None].
  destruct (s !! "lon") as [lon|] eqn:Elon;
    [rewrite (bind_get _ _ _ _ _ _ Elon) | by rewrite bind_get_None].
  rewrite bind_render, (bind_get _ _ _ _ _ _ Elat), (bind_get _ _ _ _ _ _ Elon).
  rewrite bind_render.
  replace ((((scr ++ banner name sd ed) ++ _) ++ _))
    with ((scr ++ banner name sd ed) ++ coordinates_block lat lon)
    by (unfold coordinates_block; rewrite <- !app_assoc; reflexivity).
  rewrite bind_run.
  destruct (weather_section aw _) as [[[]|e] [s3 scr3 c3]]; [|reflexivity].
  unfold button. rewrite bind_run, bind_render. cbn [session screen calls].
  unfold ret. destruct (is_reset a); reflexivity.
Qed.

Lemma init_session_run s scr c :
  init_session (mkRun s scr c) = (Ok tt, mkRun (initialised s) scr c).
Proof.
  unfold init_session, initialised, bind, has_key, set_attr, ret.
  cbn [session screen calls].
  destruct (s !! "submitted") as [v|] eqn:E1.
  - rewrite bool_decide_eq_true_2 by eauto. cbn [negb session screen calls].
    destruct (s !! "weather_data") as [v'|] eqn:E2.
    + rewrite bool_decide_eq_true_2 by eauto. reflexivity.
    + rewrite bool_decide_eq_false_2 by (intros [? ?]; congruence). reflexivity.
  - rewrite bool_decide_eq_false_2 by (intros [? ?]; congruence).
    cbn [negb session screen calls].
    destruct (<["submitted" := VBool false]> s !! "weather_data") as [v'|] eqn:E2.
    + rewrite bool_decide_eq_true_2 by eauto. reflexivity.
    + rewrite bool_decide_eq_false_2 by (intros [? ?]; congruence). reflexivity.
Qed.

Lemma initialised_id st :
  is_Some (st !! "submitted") -> is_Some (st !! "weather_data") ->
  initialised st = st.
Proof. intros [v Hv] [v' Hv']. unfold initialised. by rewrite Hv, Hv'. Qed.

Lemma initialised_lookup st k :
  k <> "submitted" -> k <> "weather_data" -> initialised st !! k = st !! k.
Proof.
  intros H1 H2. unfold initialised.
  destruct (st !! "submitted"); destruct (_ !! "weather_data");
    rewrite ?lookup_insert_ne by done; reflexivity.
Qed.

Ltac store_lookup :=
  repeat first [ rewrite lookup_insert_eq
               | rewrite lookup_insert_ne by done
               | rewrite lookup_empty ].

Ltac store_lookup_in H :=
  repeat first [ rewrite lookup_insert_eq in H
               | rewrite lookup_insert_ne in H by done
               | rewrite lookup_empty in H ].

Lemma initialised_submitted st :
  initialised st !! "submitted" =
  match st !! "submitted" with Some v => Some v | None => Some (VBool false) end.
Proof.
  unfold initialised. destruct (st !! "submitted") as [v|] eqn:E1.
  - destruct (st !! "weather_data"); store_lookup; exact E1.
  - destruct (<["submitted" := VBool false]> st !! "weather_data");
      store_lookup; reflexivity.
Qed.

Lemma initialised_weather st :
  initialised st !! "weather_data" =
  match st !! "weather_data" with Some v => Some v | None => Some VNone end.
Proof.
  unfold initialised. destruct (st !! "submitted") as [v|] eqn:E1.
  - destruct (st !! "weather_data") eqn:E2; store_lookup; [exact E2|reflexivity].
  - rewrite (lookup_insert_ne _ "submitted" "weather_data") by done.
    destruct (st !! "weather_data") eqn:E2; store_lookup; [exact E2|reflexivity].
Qed.

Lemma weather_of_initialised st : weather_of (initialised st) = weather_of st.
Proof.
  unfold weather_of, initialised.
  destruct (st !! "submitted") eqn:E1.
  - destruct (st !! "weather_data") eqn:E2; [by rewrite E2|].
    by rewrite lookup_insert_eq.
  - rewrite lookup_insert_ne by done.
    destruct (st !! "weather_data") eqn:E2.
    + by rewrite lookup_insert_ne, E2.
    + by rewrite lookup_insert_eq.
Qed.

Lemma choice_label_nth c : nth (choice_index c) ["No"; "Yes"] "" = choice_label c.
Proof. destruct c; reflexivity. Qed.

Lemma app_run w u s scr c :
  app w u (mkRun s scr c) =
  page w (w_trial_name u) (Some (w_start_date u)) (Some (w_end_date u))
       (w_postcode u) (choice_label (w_add_weather u)) (w_action u)
       (mkRun (initialised s) (scr ++ form u) c).
Proof.
  unfold app. rewrite bind_run, init_session_run.
  unfold text_input, date_input, radio.
  rewrite bind_render. unfold bind at 1. rewrite bind_render. unfold ret at 1.
  unfold bind at 1. rewrite bind_render. unfold ret at 1.
  unfold bind at 1. rewrite bind_render. unfold ret at 1.
  unfold bind at 1. rewrite bind_render. unfold ret at 1.
  unfold bind at 1. rewrite bind_render. unfold ret at 1.
  rewrite choice_label_nth. unfold form. rewrite <- !app_assoc. reflexivity.
Qed.

Lemma page_run w name sd ed pc aw a s scr c :
  page w name sd ed pc aw a (mkRun s scr c) =
  let r0 := mkRun s (scr ++ [Button "Submit Trial Info"]) c in
  if is_submit a then
    match submit_handler w name sd ed pc aw r0 with
    | (Ok _, r1) => summary name sd ed aw a r1
    | (Raise e, r1) => (Raise e, r1)
    end
  else summary name sd ed aw a r0.
Proof.
  unfold page, button. rewrite bind_run, bind_render. unfold ret at 1.
  destruct (is_submit a); reflexivity.
Qed.

(** ** What each block leaves alone *)

Lemma summary_calls name sd ed aw a : preserves calls (summary name sd ed aw a).
Proof. unfold summary. frame. Qed.

Lemma summary_errors name sd ed aw a :
  preserves (fun r => errors_shown (screen r)) (summary name sd ed aw a).
Proof. unfold summary. frame. Qed.

Lemma summary_lookup name sd ed aw a k :
  k <> "submitted" ->
  preserves (fun r => session r !! k) (summary name sd ed aw a).
Proof. intros Hk. unfold summary. frame. Qed.

Lemma weather_section_session aw : preserves session (weather_section aw).
Proof. frame. Qed.

Lemma summary_session name sd ed aw a :
  is_reset a = false -> preserves session (summary name sd ed aw a).
Proof.
  intros Ha [s scr c]. rewrite summary_run. cbn [session screen calls].
  destruct (s !! "submitted") as [v|]; [|reflexivity].
  destruct (truthy v) as [[|]|e]; try reflexivity.
  destruct (s !! "lat"); [|reflexivity]. destruct (s !! "lon"); [|reflexivity].
  cbv zeta.
  match goal with |- context [weather_section aw ?r2] =>
    pose proof (weather_section_session aw r2) as Hw;
    destruct (weather_section aw r2) as [[[]|e] r3]
  end; cbn [snd session] in *; rewrite ?Ha; exact Hw.
Qed.

Lemma accept_errors w pc aw :
  preserves (fun r => errors_shown (screen r)) (accept w pc aw).
Proof. intros r. cbv beta. by rewrite accept_screen. Qed.

Lemma submit_handler_errors w name sd ed pc aw r :
  errors_shown (screen (snd (submit_handler w name sd ed pc aw r))) =
  errors_shown (screen r) ++
  match first_missing name sd ed pc with Some m => [m] | None => [] end.
Proof.
  rewrite submit_handler_cases. destruct (first_missing name sd ed pc) as [m|].
  - simpl. apply errors_shown_app.
  - rewrite app_nil_r. apply accept_errors.
Qed.

Lemma page_errors w name sd ed pc aw a s scr c :
  errors_shown (screen (snd (page w name sd ed pc aw a (mkRun s scr c)))) =
  errors_shown scr ++
  if is_submit a
  then match first_missing name sd ed pc with Some m => [m] | None => [] end
  else [].
Proof.
  rewrite page_run. cbv zeta.
  assert (Hb : errors_shown (scr ++ [Button "Submit Trial Info"]) = errors_shown scr)
    by (rewrite errors_shown_app; apply app_nil_r).
  destruct (is_submit a).
  - pose proof (submit_handler_errors w name sd ed pc aw
                  (mkRun s (scr ++ [Button "Submit Trial Info"]) c)) as Hh.
    destruct (submit_handler _ _ _ _ _ _ _) as [[[]|e] r1]; cbn [snd screen] in Hh.
    + rewrite (summary_errors name sd ed aw a r1), Hh, Hb. reflexivity.
    + cbn [snd]. rewrite Hh, Hb. reflexivity.
  - rewrite (summary_errors name sd ed aw a _). cbn [screen].
    rewrite Hb, app_nil_r. reflexivity.
Qed.

(** The submit handler moves the store as [submit_outcome] says. *)
Lemma submit_handler_outcome w name sd ed pc aw r :
  submit_outcome w name sd ed pc aw (session r)
    (session (snd (submit_handler w name sd ed pc aw r))).
Proof.
  rewrite submit_handler_cases.
  destruct (first_missing name sd ed pc) as [m|] eqn:Em.
  - cbn [render snd session]. apply Rejected.
    destruct (decide (name = "")); [tauto|]. destruct sd; [|tauto].
    destruct ed; [|tauto]. destruct (decide (pc = "")); [tauto|].
    assert (first_missing name (Some d) (Some d0) pc = None)
      by (apply first_missing_None; repeat split; congruence).
    congruence.
  - rewrite accept_run, located_cases. cbv zeta.
    destruct (geocode w pc) as [[loc|]|e] eqn:Eg.
    + cbn [is_not_None andb]. destruct (String.eqb_spec aw "Yes") as [->|Hne].
      * destruct (fetched w _ _) as [df|e] eqn:Ef; cbn [snd session].
        -- eapply WithWeather; eauto.
        -- eapply Located; eauto.
      * cbn [snd session]. eapply Located; eauto.
    + cbn [is_not_None andb snd session]. apply Unresolved; [done|congruence].
    + destruct e; cbn [is_not_None andb snd session];
        apply Unresolved; (done || congruence).
Qed.

Lemma accept_calls_nonempty w pc aw r :
  exists cs, calls (snd (accept w pc aw r)) = calls r ++ GeocodeCall pc :: cs.
Proof.
  rewrite accept_run. cbv zeta.
  destruct (located w pc) as [[lat lon]|e]; [|by exists []].
  destruct (is_not_None lat && is_not_None lon); [|by exists []].
  destruct (String.eqb aw "Yes"); [|by exists []].
  destruct (fetched w lat lon); exists [WeatherCall lat lon];
    cbn [snd calls]; by rewrite <- app_assoc.
Qed.

(** ** Validation on submit *)

(** C3: a submission in which at least one of the four required fields
    (trial name, start date, end date, postcode) is missing is rejected: the
    run leaves the session store exactly as it found it and makes no geocoding
    or weather call; starting from [submitted = False], the flag is still
    [False] afterwards and the page shows the submit button and one error. *)
Theorem missing_field_rejected w name sd ed pc aw st :
  name = "" \/ sd = None \/ ed = None \/ pc = "" ->
  let out := exec (page w name sd ed pc aw ClickSubmit) st in
  session (snd out) = st /\
  calls (snd out) = [] /\
  (st !! "submitted" = Some (VBool false) ->
   fst out = Ok tt /\
   session (snd out) !! "submitted" = Some (VBool false) /\
   exists m, screen (snd out) = [Button "Submit Trial Info"; Error m]).
Proof.
  intros Hmiss. destruct (first_missing_Some _ _ _ _ Hmiss) as [m Hm].
  cbv zeta. unfold exec. rewrite page_run. cbv zeta. cbn [is_submit].
  rewrite submit_handler_cases, Hm. cbn [render session screen calls app].
  set (r1 := mkRun st _ _).
  split; [exact (summary_session name sd ed aw ClickSubmit eq_refl r1)|].
  split; [exact (summary_calls name sd ed aw ClickSubmit r1)|].
  intros Hsub. rewrite summary_run. subst r1. cbn [session].
  rewrite Hsub. cbn [truthy fst snd session screen]. eauto.
Qed.

(** C5: on submit the required fields are checked in the order trial name,
    start date, end date, postcode, and checking stops at the first missing
    one: the page shows the message of the earliest missing field and no
    other error message, however many fields are missing. *)
Theorem first_missing_field_reported w name sd ed pc aw st :
  let shown :=
    errors_shown (screen (snd (exec (page w name sd ed pc aw ClickSubmit) st))) in
  shown = match first_missing name sd ed pc with Some m => [m] | None => [] end /\
  (name = "" -> shown = [err_trial_name]) /\
  (name <> "" -> sd = None -> shown = [err_start_date]) /\
  (name <> "" -> sd <> None -> ed = None -> shown = [err_end_date]) /\
  (name <> "" -> sd <> None -> ed <> None -> pc = "" -> shown = [err_postcode]).
Proof.
  cbv zeta. unfold exec. rewrite page_errors. cbn [is_submit errors_shown omap].
  rewrite app_nil_l. split; [reflexivity|].
  unfold first_missing, required_fields. cbn [find fst].
  repeat split; intros; repeat case_bool_decide; try done.
Qed.

(** C9: whatever the user enters and whatever the session holds, a run of the
    script never shows the error message for a missing start date nor the one
    for a missing end date: the date widgets always hand a date to the
    validation. *)
Theorem date_errors_unreachable w u st :
  let shown := errors_shown (screen (snd (exec (app w u) st))) in
  ~ In err_start_date shown /\ ~ In err_end_date shown.
Proof.
  cbv zeta. unfold exec. rewrite app_run, page_errors.
  change (errors_shown ([] ++ form u)) with (@nil string). rewrite app_nil_l.
  unfold first_missing, required_fields. cbn [find fst].
  destruct (is_submit (w_action u)); [|split; cbn; tauto].
  repeat case_bool_decide; try done; cbn [fmap option_fmap option_map snd];
    split; intros Hin; cbn in Hin; intuition discriminate.
Qed.

(** ** Reset *)

(** C2: a run triggered by the reset button, on a session in the Submitted
    state, changes no key of the session store other than [submitted] (so the
    stored latitude, longitude and weather table stay as they were) and makes
    no external call; when the summary can be drawn, the run completes and
    the store afterwards is the old one with [submitted] set to [False]. *)
Theorem reset_clears_only_submitted w u st :
  w_action u = ClickReset ->
  st !! "submitted" = Some (VBool true) ->
  is_Some (st !! "weather_data") ->
  let out := exec (app w u) st in
  (forall k, k <> "submitted" -> session (snd out) !! k = st !! k) /\
  calls (snd out) = [] /\
  (is_Some (st !! "lat") -> is_Some (st !! "lon") ->
   (st !! "weather_data" = Some VNone \/
    exists df, st !! "weather_data" = Some (VFrame df)) ->
   fst out = Ok tt /\ session (snd out) = <["submitted" := VBool false]> st).
Proof.
  intros Ha Hsub Hwd. cbv zeta. unfold exec. rewrite app_run, page_run.
  rewrite initialised_id by eauto. rewrite Ha. cbv zeta. cbn [is_submit].
  set (r0 := mkRun st _ _). set (aw := choice_label _).
  split; [intros k Hk; exact (summary_lookup _ _ _ aw ClickReset k Hk r0)|].
  split; [exact (summary_calls _ _ _ aw ClickReset r0)|].
  intros [lat Hlat] [lon Hlon] Hw. rewrite summary_run. subst r0.
  cbn [session screen calls]. rewrite Hsub, Hlat, Hlon. cbn [truthy].
  cbv zeta. rewrite weather_section_run. cbn [session screen calls].
  destruct (String.eqb aw "Yes"); [|by cbn].
  destruct Hw as [Hw|[df Hw]]; rewrite Hw; by cbn.
Qed.

(** ** The store across runs *)

Lemma page_store w name sd ed pc aw a r :
  exists s1,
    (if is_submit a then submit_outcome w name sd ed pc aw (session r) s1
     else s1 = session r) /\
    forall k, k <> "submitted" ->
              session (snd (page w name sd ed pc aw a r)) !! k = s1 !! k.
Proof.
  destruct r as [s scr c]. rewrite page_run. cbv zeta. cbn [session].
  destruct (is_submit a).
  - pose proof (submit_handler_outcome w name sd ed pc aw
                  (mkRun s (scr ++ [Button "Submit Trial Info"]) c)) as Ho.
    cbn [session] in Ho.
    destruct (submit_handler _ _ _ _ _ _ _) as [[[]|e] r1]; cbn [snd] in Ho;
      exists (session r1); (split; [exact Ho|]); intros k Hk; [|reflexivity].
    exact (summary_lookup name sd ed aw a k Hk r1).
  - exists s. split; [reflexivity|]. intros k Hk.
    exact (summary_lookup name sd ed aw a k Hk (mkRun s _ c)).
Qed.

Lemma weather_of_insert k v s :
  k <> "weather_data" -> weather_of (<[k := v]> s) = weather_of s.
Proof. intros H. unfold weather_of. by rewrite lookup_insert_ne. Qed.

Lemma weather_of_lookup s s' :
  s' !! "weather_data" = s !! "weather_data" -> weather_of s' = weather_of s.
Proof. unfold weather_of. by intros ->. Qed.

Lemma choice_label_Yes c : choice_label c = "Yes" <-> c = Yes.
Proof. destruct c; split; intros H; done. Qed.

Lemma coordinates_kept_initialised st :
  coordinates_kept st -> coordinates_kept (initialised st).
Proof.
  intros Hst df Hdf. rewrite !initialised_lookup by done. apply (Hst df).
  pose proof (weather_of_initialised st) as Hw. unfold weather_of in Hw.
  rewrite Hdf in Hw. destruct (st !! "weather_data") as [[]|]; congruence.
Qed.

Lemma coordinates_kept_outcome w name sd ed pc aw s s1 :
  submit_outcome w name sd ed pc aw s s1 ->
  coordinates_kept s -> coordinates_kept s1.
Proof.
  intros Ho Hs. destruct Ho; intros df' Hdf.
  - exact (Hs df' Hdf).
  - rewrite lookup_insert_ne in Hdf by done.
    rewrite !lookup_insert_ne by done. exact (Hs df' Hdf).
  - rewrite !lookup_insert_ne in Hdf by done. clear Hdf.
    rewrite lookup_insert_ne, lookup_insert_eq, lookup_insert_eq by done. eauto.
  - rewrite (lookup_insert_ne _ "weather_data" "lat") by done.
    rewrite (lookup_insert_ne _ "weather_data" "lon") by done.
    rewrite lookup_insert_ne, lookup_insert_eq, lookup_insert_eq by done. eauto.
Qed.

Lemma coordinates_kept_lookup s s' :
  (forall k, k <> "submitted" -> s' !! k = s !! k) ->
  coordinates_kept s -> coordinates_kept s'.
Proof.
  intros Heq Hs df Hdf. rewrite !Heq in * by done. exact (Hs df Hdf).
Qed.

Lemma step_lookup w u st :
  exists s1,
    (if is_submit (w_action u)
     then submit_outcome w (w_trial_name u) (Some (w_start_date u))
            (Some (w_end_date u)) (w_postcode u)
            (choice_label (w_add_weather u)) (initialised st) s1
     else s1 = initialised st) /\
    forall k, k <> "submitted" -> step w u st !! k = s1 !! k.
Proof.
  unfold step, exec. rewrite app_run.
  exact (page_store w _ _ _ _ _ (w_action u) (mkRun (initialised st) _ _)).
Qed.

Lemma reachable_coordinates_kept st : reachable st -> coordinates_kept st.
Proof.
  induction 1 as [|w u st Hr IH].
  - intros df Hdf. by rewrite lookup_empty in Hdf.
  - destruct (step_lookup w u st) as (s1 & Ho & Heq).
    apply (coordinates_kept_lookup s1); [exact Heq|].
    apply coordinates_kept_initialised in IH.
    destruct (is_submit (w_action u)); [|by subst].
    eapply coordinates_kept_outcome; eauto.
Qed.

(** ** Weather is fetched on request only *)

(** C7: a run whose weather opt-in reads "No" leaves the stored weather table
    as it was, so an absent table stays absent whatever the geocoder answers;
    and a run that ends with a table where none was stored was a submission
    with all required fields, opt-in "Yes" and a postcode that the geocoder
    resolved to the coordinates now stored. *)
Theorem weather_only_on_opt_in w u st :
  let st' := step w u st in
  (w_add_weather u = No -> weather_of st' = weather_of st) /\
  (weather_of st = None -> weather_of st' <> None ->
   w_action u = ClickSubmit /\ w_add_weather u = Yes /\
   w_trial_name u <> "" /\ w_postcode u <> "" /\
   exists loc, geocode w (w_postcode u) = Ok (Some loc) /\
               st' !! "lat" = Some (VFloat (latitude loc)) /\
               st' !! "lon" = Some (VFloat (longitude loc))).
Proof.
  cbv zeta. destruct (step_lookup w u st) as (s1 & Ho & Heq).
  assert (Hw : weather_of (step w u st) = weather_of s1)
    by (apply weather_of_lookup, Heq; done).
  rewrite Hw, !Heq by done. clear Hw Heq.
  destruct (w_action u); cbn [is_submit] in Ho;
    try (subst s1; rewrite weather_of_initialised; split; [done|congruence]).
  destruct Ho as [Hm | Hm Hg | loc Hm Hg Hf | loc df Hm Hg Haw Hf];
    rewrite ?weather_of_insert, ?weather_of_initialised by done;
    try (split; [done|congruence]).
  apply choice_label_Yes in Haw. apply first_missing_None in Hm.
  split; [congruence|]. intros _ _. repeat split; try tauto.
  exists loc. split; [exact Hg|].
  rewrite (lookup_insert_ne _ "weather_data" "lat") by done.
  rewrite (lookup_insert_ne _ "weather_data" "lon") by done.
  by rewrite lookup_insert_ne, lookup_insert_eq, lookup_insert_eq.
Qed.

(** ** What the summary shows *)

Lemma weather_section_part aw r :
  summary_part (screen (snd (weather_section aw r))) =
  summary_part (screen r) ++
  if String.eqb aw "Yes" then
    match session r !! "weather_data" with
    | Some (VFrame df) => weather_block df
    | Some VNone | None => []
    | Some _ => [Write [Lit "**Weather Data Sample (hourly):**"]]
    end
  else [].
Proof.
  rewrite weather_section_run.
  destruct (String.eqb aw "Yes"); [|by rewrite app_nil_r].
  destruct (session r !! "weather_data") as [[| b | f | df]|];
    cbn [snd screen]; rewrite ?summary_part_app, ?app_nil_r; reflexivity.
Qed.

Lemma summary_shows name sd ed aw a r :
  summary_part (screen (snd (summary name sd ed aw a r))) =
  summary_part (screen r) ++ summary_elements name sd ed aw (session r).
Proof.
  destruct r as [s scr c]. rewrite summary_run. unfold summary_elements.
  cbn [session screen calls].
  destruct (s !! "submitted") as [v|]; [|by rewrite app_nil_r].
  destruct (truthy v) as [[|]|e]; try by rewrite app_nil_r.
  cbv zeta.
  destruct (s !! "lat") as [lat|];
    [|cbn [snd screen]; by rewrite summary_part_app, app_nil_r].
  destruct (s !! "lon") as [lon|];
    [|cbn [snd screen]; by rewrite summary_part_app, app_nil_r].
  match goal with |- context [weather_section aw ?r2] =>
    pose proof (weather_section_part aw r2) as Hw;
    destruct (weather_section aw r2) as [[[]|e] r3]
  end; cbn [snd session screen] in *;
    rewrite ?summary_part_app, ?Hw, ?summary_part_app, ?app_nil_r, <- ?app_assoc;
    reflexivity.
Qed.

Lemma submit_handler_plain w name sd ed pc aw :
  preserves (fun r => summary_part (screen r)) (submit_handler w name sd ed pc aw).
Proof.
  rewrite submit_handler_cases. destruct (first_missing name sd ed pc).
  - apply render_plain. reflexivity.
  - intros r. cbv beta. by rewrite accept_screen.
Qed.

Lemma In_summary_part e scr :
  is_summary_element e = true -> (In e scr <-> In e (summary_part scr)).
Proof. intros He. unfold summary_part. rewrite List.filter_In. tauto. Qed.

Lemma summary_elements_Success name sd ed aw s m :
  In (Success m) (summary_elements name sd ed aw s) ->
  m = [Lit "✅ Trial '"; Str name; Lit "' recorded successfully!"] /\
  In (Write [Lit "**Start Date:** "; DateStr sd]) (summary_elements name sd ed aw s) /\
  In (Write [Lit "**End Date:** "; DateStr ed]) (summary_elements name sd ed aw s).
Proof.
  unfold summary_elements.
  destruct (s !! "submitted") as [v|]; [|intros []].
  destruct (truthy v) as [[|]|e]; [|intros []|intros []].
  intros Hin. split; [|split; apply in_or_app; left; cbn; tauto].
  apply in_app_or in Hin. destruct Hin as [Hin|Hin].
  - cbn in Hin. intuition congruence.
  - exfalso. destruct (s !! "lat"); [|exact Hin]. destruct (s !! "lon"); [|exact Hin].
    apply in_app_or in Hin. destruct Hin as [Hin|Hin];
      [cbn in Hin; intuition discriminate|].
    destruct (String.eqb aw "Yes"); [|exact Hin].
    destruct (s !! "weather_data") as [[]|]; cbn in Hin; intuition discriminate.
Qed.

Lemma summary_elements_weather name sd ed aw s :
  coordinates_kept s ->
  weather_shown (summary_elements name sd ed aw s) <->
  (exists m, In (Success m) (summary_elements name sd ed aw s)) /\
  aw = "Yes" /\ weather_of s <> None.
Proof.
  intros Hk. unfold weather_shown, summary_elements, weather_of. split.
  - intros (df & Hin & _).
    destruct (s !! "submitted") as [v|]; [|destruct Hin].
    destruct (truthy v) as [[|]|e]; [|destruct Hin|destruct Hin].
    split; [eexists; apply in_or_app; left; left; reflexivity|].
    apply in_app_or in Hin. destruct Hin as [Hin|Hin];
      [cbn in Hin; intuition discriminate|].
    destruct (s !! "lat"); [|destruct Hin]. destruct (s !! "lon"); [|destruct Hin].
    apply in_app_or in Hin. destruct Hin as [Hin|Hin];
      [cbn in Hin; intuition discriminate|].
    destruct (String.eqb_spec aw "Yes"); [|destruct Hin].
    split; [done|].
    destruct (s !! "weather_data") as [[]|]; cbn in Hin; try done;
      intuition discriminate.
  - intros ((m & Hin) & Haw & Hw).
    destruct (s !! "weather_data") as [[| b | f | df]|] eqn:Ewd; try done.
    destruct (Hk df Ewd) as [[lat Hlat] [lon Hlon]].
    destruct (s !! "submitted") as [v|]; [|destruct Hin].
    destruct (truthy v) as [[|]|e]; [|destruct Hin|destruct Hin].
    rewrite Hlat, Hlon, Haw. cbn [String.eqb Ascii.eqb Bool.eqb].
    exists df. split; apply in_or_app; right; apply in_or_app; right;
      cbn; tauto.
Qed.

Lemma weather_shown_part scr : weather_shown scr <-> weather_shown (summary_part scr).
Proof.
  unfold weather_shown. split; intros (df & H1 & H2); exists df; split.
  - exact (proj1 (In_summary_part (Dataframe _) scr eq_refl) H1).
  - exact (proj1 (In_summary_part (DownloadButton _ _ _ _) scr eq_refl) H2).
  - exact (proj2 (In_summary_part (Dataframe _) scr eq_refl) H1).
  - exact (proj2 (In_summary_part (DownloadButton _ _ _ _) scr eq_refl) H2).
Qed.

(** The summary-only part of a page, after a whole run of the script. *)
Lemma app_summary_part w u st :
  coordinates_kept st ->
  let out := exec (app w u) st in
  summary_part (screen (snd out)) = [] \/
  exists s1,
    coordinates_kept s1 /\
    weather_of (session (snd out)) = weather_of s1 /\
    summary_part (screen (snd out)) =
    summary_elements (w_trial_name u) (Some (w_start_date u))
      (Some (w_end_date u)) (choice_label (w_add_weather u)) s1.
Proof.
  intros Hk. apply coordinates_kept_initialised in Hk.
  cbv zeta. unfold exec. rewrite app_run, page_run. cbv zeta. cbn [app].
  set (r0 := mkRun (initialised st) _ []).
  set (aw := choice_label _).
  assert (H0 : summary_part (screen r0) = []) by reflexivity.
  destruct (is_submit (w_action u)).
  - pose proof (submit_handler_outcome w (w_trial_name u) (Some (w_start_date u))
                  (Some (w_end_date u)) (w_postcode u) aw r0) as Ho.
    pose proof (submit_handler_plain w (w_trial_name u) (Some (w_start_date u))
                  (Some (w_end_date u)) (w_postcode u) aw r0) as Hp.
    cbv beta in Hp.
    destruct (submit_handler _ _ _ _ _ _ _) as [[[]|e] r1]; cbn [snd] in *.
    + right. exists (session r1). split;
        [eapply coordinates_kept_outcome; [exact Ho|exact Hk]|].
      split; [apply weather_of_lookup;
              exact (summary_lookup _ _ _ aw (w_action u) "weather_data"
                       ltac:(done) r1)|].
      by rewrite summary_shows, Hp, H0.
    + left. by rewrite Hp.
  - right. exists (initialised st). split; [exact Hk|].
    split; [apply weather_of_lookup;
            exact (summary_lookup _ _ _ aw (w_action u) "weather_data"
                     ltac:(done) r0)|].
    by rewrite summary_shows, H0.
Qed.

Lemma app_completed w u st :
  fst (exec (app w u) st) = Ok tt ->
  exists r1,
    exec (app w u) st =
    summary (w_trial_name u) (Some (w_start_date u)) (Some (w_end_date u))
            (choice_label (w_add_weather u)) (w_action u) r1 /\
    summary_part (screen r1) = [] /\
    (is_submit (w_action u) = false -> session r1 = initialised st).
Proof.
  unfold exec. rewrite app_run, page_run. cbv zeta.
  set (r0 := mkRun (initialised st) _ []).
  assert (H0 : summary_part (screen r0) = []) by reflexivity.
  destruct (is_submit (w_action u)).
  - pose proof (submit_handler_plain w (w_trial_name u) (Some (w_start_date u))
                  (Some (w_end_date u)) (w_postcode u)
                  (choice_label (w_add_weather u)) r0) as Hp.
    cbv beta in Hp.
    destruct (submit_handler _ _ _ _ _ _ _) as [[[]|e] r1]; cbn [snd] in Hp;
      [|discriminate].
    intros _. exists r1. split; [reflexivity|]. split; [by rewrite Hp|done].
  - intros _. exists r0. done.
Qed.

Lemma summary_completed name sd ed aw a r :
  fst (summary name sd ed aw a r) = Ok tt ->
  session r !! "submitted" = Some (VBool true) ->
  exists lat lon,
    session r !! "lat" = Some lat /\ session r !! "lon" = Some lon /\
    session (snd (summary name sd ed aw a r)) =
      (if is_reset a then <["submitted" := VBool false]> (session r)
       else session r) /\
    summary_elements name sd ed aw (session r) =
      banner name sd ed ++ coordinates_block lat lon ++
      if String.eqb aw "Yes"
      then match weather_of (session r) with
           | Some df => weather_block df
           | None => []
           end
      else [].
Proof.
  destruct r as [s scr c]. cbn [session]. intros Hok Hs.
  unfold summary_elements, weather_of. rewrite summary_run in *.
  cbn [session screen calls] in *. rewrite Hs in *. cbn [truthy] in *.
  cbv zeta in Hok.
  destruct (s !! "lat") as [lat|]; [|discriminate].
  destruct (s !! "lon") as [lon|]; [|discriminate].
  exists lat, lon. split; [reflexivity|]. split; [reflexivity|].
  rewrite weather_section_run in *. cbn [session screen calls] in *.
  destruct (String.eqb aw "Yes").
  - destruct (s !! "weather_data") as [[| b | f | df]|]; try discriminate;
      cbn [fst snd session]; done.
  - cbn [fst snd session]. done.
Qed.

(** C10: the summary is drawn from the widgets' current values and not from
    a record kept at submission.  Any success banner on the page carries the
    trial name now in the text box, next to the dates now in the date
    widgets; the weather preview with its download button is on the page
    exactly when the summary is, the radio now reads "Yes" and a weather table
    is stored, so that a table fetched earlier is hidden once the radio is
    turned to "No".  And the summary is indeed drawn: whenever a run completes
    on a session that was marked submitted when the summary was reached, what
    it has drawn of the summary is the banner with the current trial name, the
    two current dates, the stored coordinates with the map, and then the
    preview and download of the stored table if the radio reads "Yes" and a
    table is stored, and nothing of the weather otherwise. *)
Theorem summary_from_current_widgets w u st :
  reachable st ->
  let out := exec (app w u) st in
  let scr := screen (snd out) in
  (forall m, In (Success m) scr ->
     m = [Lit "✅ Trial '"; Str (w_trial_name u); Lit "' recorded successfully!"] /\
     In (Write [Lit "**Start Date:** "; DateStr (Some (w_start_date u))]) scr /\
     In (Write [Lit "**End Date:** "; DateStr (Some (w_end_date u))]) scr) /\
  (weather_shown scr <->
   (exists m, In (Success m) scr) /\ w_add_weather u = Yes /\
   weather_of (session (snd out)) <> None) /\
  (w_add_weather u = No -> ~ weather_shown scr) /\
  (fst out = Ok tt ->
   (if is_reset (w_action u) then st else session (snd out)) !! "submitted"
   = Some (VBool true) ->
   exists lat lon,
     session (snd out) !! "lat" = Some lat /\
     session (snd out) !! "lon" = Some lon /\
     summary_part scr =
       banner (w_trial_name u) (Some (w_start_date u)) (Some (w_end_date u)) ++
       coordinates_block lat lon ++
       match w_add_weather u, weather_of (session (snd out)) with
       | Yes, Some df => weather_block df
       | _, _ => []
       end).
Proof.
  intros Hr. apply reachable_coordinates_kept in Hr.
  cbv zeta. pose proof (app_summary_part w u st Hr) as Hs. cbv zeta in Hs.
  pose proof (app_completed w u st) as Hc.
  set (out := exec (app w u) st) in *.
  assert (Hsucc : forall m, In (Success m) (screen (snd out)) <->
                            In (Success m) (summary_part (screen (snd out))))
    by (intros m; exact (In_summary_part (Success m) _ eq_refl)).
  assert (Hiff : weather_shown (screen (snd out)) <->
    (exists m, In (Success m) (screen (snd out))) /\ w_add_weather u = Yes /\
    weather_of (session (snd out)) <> None).
  { rewrite weather_shown_part. setoid_rewrite Hsucc.
    destruct Hs as [Hs|(s1 & Hk1 & Hw1 & Hs)]; rewrite Hs.
    - split; [intros (df & [] & _)|intros ((m & []) & _)].
    - rewrite Hw1, <- choice_label_Yes. by apply summary_elements_weather. }
  split; [|split; [exact Hiff|split]].
  - intros m Hm. apply Hsucc in Hm.
    destruct Hs as [Hs|(s1 & _ & _ & Hs)]; rewrite Hs in Hm; [destruct Hm|].
    apply summary_elements_Success in Hm. rewrite <- Hs in Hm.
    destruct Hm as (Hm & Hsd & Hed). split; [exact Hm|].
    split; [exact (proj2 (In_summary_part (Write _) _ eq_refl) Hsd)
           |exact (proj2 (In_summary_part (Write _) _ eq_refl) Hed)].
  - intros Hno Hsh. apply Hiff in Hsh. destruct Hsh as (_ & Hyes & _). congruence.
  - intros Hok Hsub. destruct (Hc Hok) as (r1 & Hout & Hp1 & Hr1).
    rewrite Hout in Hok, Hsub |- *.
    set (aw := choice_label (w_add_weather u)) in *.
    assert (Hs1 : session r1 !! "submitted" = Some (VBool true)).
    { destruct (w_action u) eqn:Ha; cbn [is_reset] in Hsub.
      - by rewrite summary_session in Hsub.
      - by rewrite summary_session in Hsub.
      - rewrite Hr1 by reflexivity. by rewrite initialised_submitted, Hsub. }
    destruct (summary_completed _ _ _ aw (w_action u) r1 Hok Hs1)
      as (lat & lon & Hlat & Hlon & Hfin & Hel).
    exists lat, lon. rewrite summary_shows, Hp1, app_nil_l, Hel, Hfin.
    assert (Hw : weather_of (if is_reset (w_action u)
                             then <["submitted" := VBool false]> (session r1)
                             else session r1) = weather_of (session r1))
      by (destruct (is_reset (w_action u)); [by apply weather_of_insert|done]).
    rewrite Hw.
    split; [destruct (is_reset (w_action u)); by store_lookup|].
    split; [destruct (is_reset (w_action u)); by store_lookup|].
    subst aw. destruct (w_add_weather u); reflexivity.
Qed.

(** ** Geocoding *)

(** What [get_coordinates] does for each answer of the geocoder; its only
    effect is the call itself. *)
Lemma get_coordinates_spec w pc st :
  let out := exec (get_coordinates w pc) st in
  session (snd out) = st /\ screen (snd out) = [] /\
  calls (snd out) = [GeocodeCall pc] /\
  (forall loc, geocode w pc = Ok (Some loc) ->
     fst out = Ok (VFloat (latitude loc), VFloat (longitude loc))) /\
  (geocode w pc = Ok None -> fst out = Ok (VNone, VNone)) /\
  (geocode w pc = Raise GeocoderTimedOut -> fst out = Ok (VNone, VNone)) /\
  (forall e, geocode w pc = Raise e -> e <> GeocoderTimedOut -> fst out = Raise e).
Proof.
  cbv zeta. unfold exec. rewrite get_coordinates_run, located_cases.
  cbn [fst snd session screen calls app]. repeat split.
  - by intros loc ->.
  - by intros ->.
  - by intros ->.
  - intros e -> He. by destruct e.
Qed.

(** C6, as stated, fails: with the geocoder unreachable, [get_coordinates]
    raises [GeocoderUnavailable] instead of returning a pair or the absent
    result. *)
Lemma get_coordinates_raises_when_offline :
  fst (exec (get_coordinates offline_world "BS1 1AA") ∅) = Raise GeocoderUnavailable /\
  ~ (forall w pc st, exists v, fst (exec (get_coordinates w pc) st) = Ok v).
Proof.
  split; [reflexivity|]. intros H.
  destruct (H offline_world "BS1 1AA" ∅) as [v Hv]. discriminate Hv.
Qed.

(** C6, amended: when the geocoder answers with a match, [get_coordinates]
    returns its latitude and longitude; when it answers with no match or times
    out, [get_coordinates] returns the same absent result [(None, None)]
    without raising; any other exception of the geocoder propagates. *)
Theorem get_coordinates_absorbs_timeout_only w pc st :
  let res := fst (exec (get_coordinates w pc) st) in
  (forall loc, geocode w pc = Ok (Some loc) ->
     res = Ok (VFloat (latitude loc), VFloat (longitude loc))) /\
  (geocode w pc = Ok None \/ geocode w pc = Raise GeocoderTimedOut ->
     res = Ok (VNone, VNone)) /\
  (forall e, geocode w pc = Raise e -> e <> GeocoderTimedOut -> res = Raise e).
Proof.
  destruct (get_coordinates_spec w pc st) as (_ & _ & _ & H1 & H2 & H3 & H4).
  cbv zeta in *. repeat split; [exact H1| |exact H4].
  intros [H|H]; auto.
Qed.

(** ** A first submission whose postcode does not resolve *)

Lemma initialised_empty :
  initialised ∅ = <["weather_data" := VNone]> (<["submitted" := VBool false]> ∅).
Proof. reflexivity. Qed.

(** On a fresh session, a valid submission whose postcode finds no match, or
    whose lookup times out, is marked submitted with no coordinates and no
    weather stored, and the summary then raises on [st.session_state.lat]. *)
Lemma unresolved_submission_breaks_summary w u :
  w_action u = ClickSubmit ->
  w_trial_name u <> "" -> w_postcode u <> "" ->
  geocode w (w_postcode u) = Ok None \/
  geocode w (w_postcode u) = Raise GeocoderTimedOut ->
  let out := exec (app w u) ∅ in
  fst out = Raise (AttributeError "lat") /\
  session (snd out) !! "submitted" = Some (VBool true) /\
  session (snd out) !! "lat" = None /\
  session (snd out) !! "lon" = None /\
  session (snd out) !! "weather_data" = Some VNone /\
  calls (snd out) = [GeocodeCall (w_postcode u)].
Proof.
  intros Ha Hn Hp Hg. cbv zeta. unfold exec.
  rewrite app_run, page_run, Ha. cbv zeta. cbn [is_submit].
  rewrite submit_handler_cases.
  assert (Hm : first_missing (w_trial_name u) (Some (w_start_date u))
                 (Some (w_end_date u)) (w_postcode u) = None)
    by (apply first_missing_None; repeat split; congruence).
  rewrite Hm, accept_run, located_cases. cbv zeta. cbn [session screen calls].
  assert (Hl : match geocode w (w_postcode u) with
               | Ok (Some loc) => Ok (VFloat (latitude loc), VFloat (longitude loc))
               | Ok None => Ok (VNone, VNone)
               | Raise GeocoderTimedOut => Ok (VNone, VNone)
               | Raise e => Raise e
               end = Ok (VNone, VNone)) by (destruct Hg as [-> | ->]; reflexivity).
  rewrite Hl. cbn [is_not_None andb]. rewrite summary_run.
  cbn [session screen calls]. rewrite lookup_insert_eq. cbn [truthy].
  rewrite initialised_empty.
  rewrite !(lookup_insert_ne _ _ "lat"), !(lookup_insert_ne _ _ "lon") by done.
  rewrite !lookup_empty. cbn [fst snd session calls app].
  rewrite lookup_insert_eq.
  rewrite (lookup_insert_ne _ "submitted" "weather_data") by done.
  rewrite lookup_insert_eq. done.
Qed.

(** C1: on a fresh session, submitting "Greenhouse Test A" with the
    unresolvable postcode "ZZZZZZ" and the weather opt-in on "Yes" sets
    [submitted], stores neither coordinates nor weather and calls the geocoder
    once; the summary then shows the banner and the two dates and stops with
    [AttributeError] on [st.session_state.lat]: no coordinates line, with or
    without placeholders, is drawn. *)
Theorem unresolved_postcode_run :
  let out := exec (app bristol_world (greenhouse "ZZZZZZ" Yes ClickSubmit)) ∅ in
  fst out = Raise (AttributeError "lat") /\
  session (snd out) !! "submitted" = Some (VBool true) /\
  session (snd out) !! "lat" = None /\
  session (snd out) !! "lon" = None /\
  session (snd out) !! "weather_data" = Some VNone /\
  calls (snd out) = [GeocodeCall "ZZZZZZ"] /\
  screen (snd out) =
    form (greenhouse "ZZZZZZ" Yes ClickSubmit) ++
    [Button "Submit Trial Info"] ++
    banner "Greenhouse Test A" (Some (Date 2024 1 1)) (Some (Date 2024 1 10)).
Proof. vm_compute. repeat split. Qed.

(** Once in that state the session cannot leave it: every later run that
    does not resubmit stops at the same place, before the reset button. *)
Lemma unresolved_session_stuck w u st :
  st !! "submitted" = Some (VBool true) -> st !! "lat" = None ->
  is_Some (st !! "weather_data") -> is_submit (w_action u) = false ->
  let out := exec (app w u) st in
  fst out = Raise (AttributeError "lat") /\ session (snd out) = st.
Proof.
  intros Hs Hl Hw Ha. cbv zeta. unfold exec.
  rewrite app_run, page_run, Ha, initialised_id by eauto. cbv zeta.
  rewrite summary_run. cbn [session screen calls]. rewrite Hs, Hl. done.
Qed.

(** ** The hourly series *)

Lemma regular_range_pos a b s :
  0 < s -> a <= b ->
  generate_regular_range a b s =
  Ok (map (fun k => a + Z.of_nat k * s) (seq 0 (S (Z.to_nat ((b - a) / s))))).
Proof.
  intros Hs Hab. unfold generate_regular_range.
  destruct (Z.eqb_spec s 0) as [?|_]; [lia|]. cbv zeta. unfold arange.
  do 3 f_equal. set (q := (b - a) / s).
  assert (Hq : 0 <= q) by (apply Z.div_pos; lia).
  assert (Hh : 0 <= s / 2 < s)
    by (split; [apply Z.div_pos; lia | apply Z.div_lt; lia]).
  assert (Hd : (a - (a + q * s + s / 2 + 1)) / s = - q - 1).
  { symmetry. apply Z.div_unique with (r := s - s / 2 - 1); [lia | ring]. }
  rewrite Hd. lia.
Qed.

Lemma date_range_left_pos a b s :
  0 < s -> a < b ->
  date_range_left a b s =
  Ok (map (fun k => a + Z.of_nat k * s) (seq 0 (Z.to_nat (- ((a - b) / s))))).
Proof.
  intros Hs Hab. unfold date_range_left.
  rewrite regular_range_pos by lia.
  destruct (Z.eqb_spec a b) as [?|_]; [lia|].
  set (q := (b - a) / s).
  assert (Hq : 0 <= q) by (apply Z.div_pos; lia).
  pose proof (Z.div_mod (b - a) s ltac:(lia)) as Hdm. fold q in Hdm.
  pose proof (Z.mod_pos_bound (b - a) s Hs) as Hmb.
  rewrite seq_S, map_app. cbn [map Nat.add]. rewrite last_snoc.
  rewrite Z2Nat.id by exact Hq.
  replace (a - b) with (- (b - a)) by ring.
  case_bool_decide as Hlast.
  - assert (Hm : (b - a) mod s = 0) by (injection Hlast; lia).
    rewrite removelast_last, Z.div_opp_l_z by lia. fold q.
    rewrite Z.opp_involutive. reflexivity.
  - assert (Hm : (b - a) mod s <> 0)
      by (intros Hm; apply Hlast; f_equal; lia).
    rewrite Z.div_opp_l_nz by lia. fold q.
    replace (Z.to_nat (- (- q - 1))) with (S (Z.to_nat q)) by lia.
    rewrite seq_S, map_app. cbn [map Nat.add].
    rewrite Z2Nat.id by exact Hq. reflexivity.
Qed.

Lemma hourly_dates h :
  0 < Interval h -> Time h < TimeEnd h ->
  date_range_left (to_datetime_s (Time h)) (to_datetime_s (TimeEnd h))
                  (Timedelta_seconds (Interval h)) = Ok (expected_dates h).
Proof.
  intros Hi Ht. unfold to_datetime_s, Timedelta_seconds, NS_PER_S.
  rewrite date_range_left_pos by lia. f_equal.
  unfold expected_dates, expected_rows, to_datetime_s, NS_PER_S.
  replace (Time h * 1000000000 - TimeEnd h * 1000000000)
    with ((Time h - TimeEnd h) * 1000000000) by ring.
  rewrite Z.div_mul_cancel_r by lia.
  apply map_ext. intros k. ring.
Qed.

Lemma expected_rows_exact h :
  0 < Interval h -> Time h < TimeEnd h ->
  (Interval h | TimeEnd h - Time h) ->
  Z.of_nat (expected_rows h) = (TimeEnd h - Time h) / Interval h.
Proof.
  intros Hi Ht Hd. unfold expected_rows.
  replace (Time h - TimeEnd h) with (- (TimeEnd h - Time h)) by ring.
  apply Z.mod_divide in Hd; [|lia].
  rewrite Z.div_opp_l_z, Z.opp_involutive by lia.
  apply Z2Nat.id, Z.div_pos; lia.
Qed.

Lemma expected_rows_bound h k :
  0 < Interval h -> (k < expected_rows h)%nat ->
  Time h + Z.of_nat k * Interval h < TimeEnd h.
Proof.
  intros Hi Hk. unfold expected_rows in Hk.
  pose proof (Z.div_mod (Time h - TimeEnd h) (Interval h) ltac:(lia)) as Hdm.
  pose proof (Z.mod_pos_bound (Time h - TimeEnd h) (Interval h) Hi) as Hmb.
  set (d := (Time h - TimeEnd h) / Interval h) in *.
  assert (Hkd : Z.of_nat k <= - d - 1) by lia.
  assert (Z.of_nat k * Interval h <= (- d - 1) * Interval h)
    by (apply Z.mul_le_mono_nonneg_r; lia).
  lia.
Qed.

Lemma expected_dates_length h : length (expected_dates h) = expected_rows h.
Proof. unfold expected_dates. by rewrite length_map, length_seq. Qed.

Lemma expected_dates_nth h k :
  (k < expected_rows h)%nat ->
  nth k (expected_dates h) 0 = to_datetime_s (Time h + Z.of_nat k * Interval h).
Proof.
  intros Hk. unfold expected_dates.
  rewrite (nth_indep _ 0 (to_datetime_s (Time h + Z.of_nat 0 * Interval h)))
    by (by rewrite length_map, length_seq).
  rewrite (map_nth (fun k => to_datetime_s (Time h + Z.of_nat k * Interval h))).
  by rewrite seq_nth.
Qed.

Lemma fetched_hourly w lat lon h rest :
  weather_api w lat lon = Ok (h :: rest) ->
  0 < Interval h -> Time h < TimeEnd h ->
  fetched w lat lon =
  if window_in_bounds h
  then make_DataFrame (expected_dates h) (Variables h 0) (Variables h 1)
                      (Variables h 2)
  else Raise ValueError.
Proof.
  intros Hw Hi Ht. rewrite fetched_cases, Hw.
  unfold to_datetime, Timedelta, window_in_bounds.
  destruct (in_bounds (to_datetime_s (Time h))); [|reflexivity].
  destruct (in_bounds (to_datetime_s (TimeEnd h))); [|reflexivity].
  destruct (in_bounds (Timedelta_seconds (Interval h))); [|reflexivity].
  rewrite hourly_dates by done. reflexivity.
Qed.

Lemma make_DataFrame_Ok d t c p df :
  make_DataFrame d t c p = Ok df <->
  (length t = length d /\ length c = length d /\ length p = length d) /\
  df = mkDataFrame d t c p.
Proof.
  unfold make_DataFrame. case_bool_decide as H; split.
  - intros [= <-]. tauto.
  - intros [_ ->]. reflexivity.
  - discriminate.
  - tauto.
Qed.

(** C4, as stated, fails: for a window of 10 seconds and an interval of 3
    the series has the four rows 0, 3, 6 and 9 seconds, which is not
    (10 - 0) / 3, neither rounded down nor as an exact quotient. *)
Lemma ragged_window_rows :
  exists df,
    fst (exec (fetch_weather_data ragged_world (VFloat f_51_45) (VFloat f_m2_59)) ∅)
    = Ok df /\
    col_date df = [0; 3000000000; 6000000000; 9000000000] /\
    Z.of_nat (nrows df) <> (TimeEnd ragged - Time ragged) / Interval ragged /\
    Z.of_nat (nrows df) * Interval ragged <> TimeEnd ragged - Time ragged.
Proof.
  eexists. split; [vm_compute; reflexivity|].
  split; [reflexivity|]. split; vm_compute; discriminate.
Qed.

(** C4, amended: for a response with a positive interval and a window whose
    start lies before its end, the table [fetch_weather_data] returns has
    exactly ceil((end - start) / interval) rows, which is
    (end - start) / interval when the interval divides the window; row k is
    stamped start + k * interval, so each timestamp is exactly one interval
    after the previous, timestamps ascend strictly and all lie in the window,
    start included, end excluded. *)
Theorem hourly_series_shape w lat lon h rest st :
  weather_api w lat lon = Ok (h :: rest) ->
  0 < Interval h -> Time h < TimeEnd h ->
  forall df, fst (exec (fetch_weather_data w lat lon) st) = Ok df ->
    nrows df = expected_rows h /\
    ((Interval h | TimeEnd h - Time h) ->
     Z.of_nat (nrows df) = (TimeEnd h - Time h) / Interval h) /\
    (forall k, (k < nrows df)%nat ->
       nth k (col_date df) 0 = to_datetime_s (Time h + Z.of_nat k * Interval h)) /\
    (forall k, (S k < nrows df)%nat ->
       nth (S k) (col_date df) 0 - nth k (col_date df) 0
       = Timedelta_seconds (Interval h)) /\
    (forall i j, (i < j)%nat -> (j < nrows df)%nat ->
       nth i (col_date df) 0 < nth j (col_date df) 0) /\
    (forall k, (k < nrows df)%nat ->
       to_datetime_s (Time h) <= nth k (col_date df) 0
       < to_datetime_s (TimeEnd h)).
Proof.
  intros Hw Hi Ht df. unfold exec. rewrite fetch_weather_data_run.
  cbn [fst]. rewrite (fetched_hourly w lat lon h rest Hw Hi Ht).
  destruct (window_in_bounds h); [|discriminate].
  intros Hdf. apply make_DataFrame_Ok in Hdf. destruct Hdf as [_ ->].
  unfold nrows. cbn [col_date]. rewrite expected_dates_length.
  split; [reflexivity|]. split; [by apply expected_rows_exact|].
  split; [intros k Hk; by apply expected_dates_nth|]. split; [|split].
  - intros k Hk. rewrite !expected_dates_nth by lia.
    unfold to_datetime_s, Timedelta_seconds. lia.
  - intros i j Hij Hj. rewrite !expected_dates_nth by lia.
    unfold to_datetime_s, NS_PER_S.
    assert (Z.of_nat i * Interval h < Z.of_nat j * Interval h)
      by (apply Z.mul_lt_mono_pos_r; lia).
    lia.
  - intros k Hk. rewrite expected_dates_nth by lia.
    pose proof (expected_rows_bound h k Hi Hk).
    assert (0 <= Z.of_nat k * Interval h) by (apply Z.mul_nonneg_nonneg; lia).
    unfold to_datetime_s, NS_PER_S. lia.
Qed.

(** ** The scenarios of the specification, run *)

Example bristol_submission :
  let out := exec (app bristol_world (greenhouse "BS1 1AA" Yes ClickSubmit)) ∅ in
  fst out = Ok tt /\
  session (snd out) !! "submitted" = Some (VBool true) /\
  session (snd out) !! "lat" = Some (VFloat f_51_45) /\
  session (snd out) !! "lon" = Some (VFloat f_m2_59) /\
  calls (snd out) = [GeocodeCall "BS1 1AA";
                     WeatherCall (VFloat f_51_45) (VFloat f_m2_59)] /\
  exists df,
    weather_of (session (snd out)) = Some df /\ nrows df = 48%nat /\
    summary_part (screen (snd out)) =
      banner "Greenhouse Test A" (Some (Date 2024 1 1)) (Some (Date 2024 1 10)) ++
      coordinates_block (VFloat f_51_45) (VFloat f_m2_59) ++ weather_block df.
Proof.
  cbv zeta. repeat (split; [vm_compute; reflexivity|]).
  eexists. split; [vm_compute; reflexivity|]. split; vm_compute; reflexivity.
Qed.

Example radio_back_to_No_hides_weather :
  let out := exec (app bristol_world (greenhouse "BS1 1AA" No NoAction))
                  (submitted_store Yes) in
  fst out = Ok tt /\
  (nrows <$> weather_of (session (snd out))) = Some 48%nat /\
  summary_part (screen (snd out)) =
    banner "Greenhouse Test A" (Some (Date 2024 1 1)) (Some (Date 2024 1 10)) ++
    coordinates_block (VFloat f_51_45) (VFloat f_m2_59).
Proof. vm_compute. repeat split. Qed.

Example timeout_like_no_match :
  located timeout_world "BS1 1AA" = located bristol_world "ZZZZZZ".
Proof. reflexivity. Qed.

(** ** The theorems above at sample inputs *)

Lemma missing_field_rejected_witness :
  ("" = "" \/ Some (Date 2024 1 1) = None \/ @None date = None \/ "" = "") /\
  let out := exec (page bristol_world "" (Some (Date 2024 1 1)) None ""
                        "Yes" ClickSubmit)
                  (initialised ∅) in
  session (snd out) = initialised ∅ /\
  calls (snd out) = [] /\
  (initialised ∅ !! "submitted" = Some (VBool false) ->
   fst out = Ok tt /\
   session (snd out) !! "submitted" = Some (VBool false) /\
   exists m, screen (snd out) = [Button "Submit Trial Info"; Error m]).
Proof.
  split; [left; reflexivity|].
  apply (missing_field_rejected bristol_world "" (Some (Date 2024 1 1)) None ""
           "Yes" (initialised ∅)).
  left; reflexivity.
Defined.

Lemma reset_clears_only_submitted_witness :
  w_action (greenhouse "BS1 1AA" Yes ClickReset) = ClickReset /\
  submitted_store Yes !! "submitted" = Some (VBool true) /\
  is_Some (submitted_store Yes !! "weather_data") /\
  let out := exec (app bristol_world (greenhouse "BS1 1AA" Yes ClickReset))
                  (submitted_store Yes) in
  (forall k, k <> "submitted" ->
             session (snd out) !! k = submitted_store Yes !! k) /\
  calls (snd out) = [] /\
  (is_Some (submitted_store Yes !! "lat") ->
   is_Some (submitted_store Yes !! "lon") ->
   (submitted_store Yes !! "weather_data" = Some VNone \/
    exists df, submitted_store Yes !! "weather_data" = Some (VFrame df)) ->
   fst out = Ok tt /\
   session (snd out) = <["submitted" := VBool false]> (submitted_store Yes)).
Proof.
  split; [reflexivity|]. split; [vm_compute; reflexivity|].
  split; [vm_compute; eexists; reflexivity|].
  apply (reset_clears_only_submitted bristol_world
           (greenhouse "BS1 1AA" Yes ClickReset) (submitted_store Yes)).
  - reflexivity.
  - vm_compute; reflexivity.
  - vm_compute; eexists; reflexivity.
Defined.

Lemma summary_from_current_widgets_witness :
  reachable (submitted_store Yes) /\
  (let out := exec (app bristol_world (greenhouse "BS1 1AA" Yes NoAction))
                   (submitted_store Yes) in
   fst out = Ok tt /\
   session (snd out) !! "submitted" = Some (VBool true) /\
   exists lat lon,
     session (snd out) !! "lat" = Some lat /\
     session (snd out) !! "lon" = Some lon /\
     summary_part (screen (snd out)) =
       banner "Greenhouse Test A" (Some (Date 2024 1 1)) (Some (Date 2024 1 10)) ++
       coordinates_block lat lon ++
       match w_add_weather (greenhouse "BS1 1AA" Yes NoAction),
             weather_of (session (snd out)) with
       | Yes, Some df => weather_block df
       | _, _ => []
       end) /\
  (let out := exec (app bristol_world (greenhouse "BS1 1AA" No NoAction))
                   (submitted_store Yes) in
   (weather_shown (screen (snd out)) <->
    (exists m, In (Success m) (screen (snd out))) /\
    w_add_weather (greenhouse "BS1 1AA" No NoAction) = Yes /\
    weather_of (session (snd out)) <> None) /\
   (w_add_weather (greenhouse "BS1 1AA" No NoAction) = No ->
    ~ weather_shown (screen (snd out)))).
Proof.
  assert (Hr : reachable (submitted_store Yes))
    by exact (reach_step bristol_world _ ∅ reach_start).
  assert (Hok : fst (exec (app bristol_world (greenhouse "BS1 1AA" Yes NoAction))
                          (submitted_store Yes)) = Ok tt)
    by (vm_compute; reflexivity).
  assert (Hs : session (snd (exec (app bristol_world
                                     (greenhouse "BS1 1AA" Yes NoAction))
                                  (submitted_store Yes))) !! "submitted"
               = Some (VBool true)) by (vm_compute; reflexivity).
  split; [exact Hr|]. split.
  - split; [exact Hok|]. split; [exact Hs|].
    destruct (summary_from_current_widgets bristol_world
                (greenhouse "BS1 1AA" Yes NoAction) (submitted_store Yes) Hr)
      as (_ & _ & _ & H4).
    exact (H4 Hok Hs).
  - destruct (summary_from_current_widgets bristol_world
                (greenhouse "BS1 1AA" No NoAction) (submitted_store Yes) Hr)
      as (_ & H2 & H3 & _).
    exact (conj H2 H3).
Defined.

Lemma hourly_series_shape_witness :
  weather_api bristol_world (VFloat f_51_45) (VFloat f_m2_59) = Ok [two_days] /\
  0 < Interval two_days /\
  Time two_days < TimeEnd two_days /\
  fst (exec (fetch_weather_data bristol_world (VFloat f_51_45) (VFloat f_m2_59)) ∅)
  = Ok two_days_table /\
  nrows two_days_table = expected_rows two_days /\
  ((Interval two_days | TimeEnd two_days - Time two_days) ->
   Z.of_nat (nrows two_days_table)
   = (TimeEnd two_days - Time two_days) / Interval two_days) /\
  (forall k, (S k < nrows two_days_table)%nat ->
     nth (S k) (col_date two_days_table) 0 - nth k (col_date two_days_table) 0
     = Timedelta_seconds (Interval two_days)).
Proof.
  assert (Hd : fst (exec (fetch_weather_data bristol_world (VFloat f_51_45)
                            (VFloat f_m2_59)) ∅) = Ok two_days_table)
    by (vm_compute; reflexivity).
  split; [reflexivity|]. split; [reflexivity|]. split; [reflexivity|].
  split; [exact Hd|].
  destruct (hourly_series_shape bristol_world (VFloat f_51_45) (VFloat f_m2_59)
              two_days [] ∅ eq_refl eq_refl eq_refl two_days_table Hd)
    as (H1 & H2 & _ & H4 & _).
  exact (conj H1 (conj H2 H4)).
Defined.

(** * Further properties of the script *)

(** ** The store after a whole run *)

Lemma summary_store name sd ed aw a r :
  session (snd (summary name sd ed aw a r)) = session r \/
  (is_reset a = true /\
   session (snd (summary name sd ed aw a r))
   = <["submitted" := VBool false]> (session r)).
Proof.
  destruct (is_reset a) eqn:Ha; [|left; by apply summary_session].
  destruct r as [s scr c]. rewrite summary_run. cbn [session screen calls].
  cbv zeta.
  destruct (s !! "submitted") as [v|]; [|left; reflexivity].
  destruct (truthy v) as [[|]|e]; [|left; reflexivity|left; reflexivity].
  destruct (s !! "lat"); [|left; reflexivity].
  destruct (s !! "lon"); [|left; reflexivity].
  match goal with |- context [weather_section aw ?r2] =>
    pose proof (weather_section_session aw r2) as Hw;
    destruct (weather_section aw r2) as [[[]|e] r3]
  end; cbn [snd session] in *; rewrite Hw, ?Ha; [right|left]; done.
Qed.

Lemma step_store w u st :
  exists s1,
    (if is_submit (w_action u)
     then submit_outcome w (w_trial_name u) (Some (w_start_date u))
            (Some (w_end_date u)) (w_postcode u)
            (choice_label (w_add_weather u)) (initialised st) s1
     else s1 = initialised st) /\
    (step w u st = s1 \/
     (is_reset (w_action u) = true /\
      step w u st = <["submitted" := VBool false]> s1)).
Proof.
  unfold step, exec. rewrite app_run, page_run. cbv zeta.
  set (r0 := mkRun (initialised st) _ []).
  destruct (is_submit (w_action u)).
  - pose proof (submit_handler_outcome w (w_trial_name u) (Some (w_start_date u))
                  (Some (w_end_date u)) (w_postcode u)
                  (choice_label (w_add_weather u)) r0) as Ho.
    destruct (submit_handler _ _ _ _ _ _ _) as [[[]|e] r1]; cbn [snd] in Ho;
      exists (session r1); (split; [exact Ho|]); [|by left].
    apply summary_store.
  - exists (initialised st). split; [reflexivity|].
    exact (summary_store _ _ _ _ (w_action u) r0).
Qed.

Lemma fetched_rectangular w lat lon df :
  fetched w lat lon = Ok df -> rectangular df.
Proof.
  rewrite fetched_cases. destruct (weather_api w lat lon) as [[|h rest]|e];
    try discriminate.
  destruct (to_datetime (Time h)) as [a|e]; [|discriminate].
  destruct (to_datetime (TimeEnd h)) as [b|e]; [|discriminate].
  destruct (Timedelta (Interval h)) as [s|e]; [|discriminate].
  destruct (date_range_left a b s) as [d|e]; [|discriminate].
  intros Hdf. apply make_DataFrame_Ok in Hdf. destruct Hdf as [Hl ->].
  exact Hl.
Qed.

Lemma session_ok_initialised st : session_ok st -> session_ok (initialised st).
Proof.
  intros (H1 & H2 & H3 & H4 & H5). unfold session_ok.
  rewrite !(initialised_lookup st "lat"), !(initialised_lookup st "lon") by done.
  rewrite initialised_submitted, initialised_weather.
  repeat split; try assumption; try apply H5.
  - intros v. destruct (st !! "submitted") as [v0|] eqn:E1.
    + intros [= <-]. by apply H1.
    + intros [= <-]. eauto.
  - intros v. destruct (st !! "weather_data") as [v0|] eqn:E2.
    + intros [= <-]. by apply H2.
    + intros [= <-]. by left.
Qed.

Lemma session_ok_submitted st b :
  session_ok st -> session_ok (<["submitted" := VBool b]> st).
Proof.
  intros (H1 & H2 & H3 & H4 & H5). unfold session_ok. store_lookup.
  repeat split; try assumption; try apply H5. intros v [= <-]. eauto.
Qed.

Lemma session_ok_outcome w name sd ed pc aw s s1 :
  submit_outcome w name sd ed pc aw s s1 -> session_ok s -> session_ok s1.
Proof.
  intros Ho Hs. destruct Ho as [Hm | Hm Hg | loc Hm Hg Hf | loc df Hm Hg Haw Hf].
  - exact Hs.
  - by apply session_ok_submitted.
  - destruct Hs as (H1 & H2 & H3 & H4 & H5). unfold session_ok. store_lookup.
    repeat split; try assumption; eauto; intros v [= <-]; eauto.
  - destruct Hs as (H1 & H2 & H3 & H4 & H5). unfold session_ok. store_lookup.
    apply fetched_rectangular in Hf.
    repeat split; eauto; intros v [= <-]; eauto.
Qed.

Lemma started_initialised st : started (initialised st).
Proof.
  unfold started. rewrite initialised_submitted, initialised_weather.
  destruct (st !! "submitted"), (st !! "weather_data"); eauto.
Qed.

Lemma started_insert st k v : started st -> started (<[k := v]> st).
Proof.
  intros [H1 H2]. unfold started. rewrite !lookup_insert.
  split; case_decide; eauto.
Qed.

Lemma started_outcome w name sd ed pc aw s s1 :
  submit_outcome w name sd ed pc aw s s1 -> started s -> started s1.
Proof. intros Ho Hs. destruct Ho; auto using started_insert. Qed.

Lemma reachable_invariants st :
  reachable st ->
  session_ok st /\ coordinates_kept st /\ (st = ∅ \/ started st).
Proof.
  intros Hr. split; [|split; [by apply reachable_coordinates_kept|]].
  - induction Hr as [|w u st Hr IH].
    + unfold session_ok. store_lookup. repeat split; try discriminate;
        intros [? ?]; discriminate.
    + destruct (step_store w u st) as (s1 & Ho & Hst).
      apply session_ok_initialised in IH.
      assert (Hs1 : session_ok s1).
      { destruct (is_submit (w_action u)); [|by subst].
        eapply session_ok_outcome; eauto. }
      destruct Hst as [-> | [_ ->]]; [exact Hs1|by apply session_ok_submitted].
  - destruct Hr as [|w u st Hr]; [by left|right].
    destruct (step_store w u st) as (s1 & Ho & Hst).
    assert (Hs1 : started s1).
    { destruct (is_submit (w_action u)); [|subst; apply started_initialised].
      eapply started_outcome; [exact Ho|apply started_initialised]. }
    destruct Hst as [-> | [_ ->]]; [exact Hs1|by apply started_insert].
Qed.

(** X1: every store the session can be in between two runs is well formed:
    [submitted] holds a bool, [weather_data] holds [None] or a table with four
    columns of equal length, [lat] and [lon] hold floats and are present
    together, a stored table comes with stored coordinates, and after the
    first run [submitted] and [weather_data] are always present. *)
Theorem reachable_session_ok st :
  reachable st ->
  session_ok st /\ coordinates_kept st /\ (st = ∅ \/ started st).
Proof. apply reachable_invariants. Qed.

(** ** A submission that passes validation *)

Lemma app_submit_run w u st :
  w_action u = ClickSubmit -> filled_in u ->
  exec (app w u) st =
  match accept w (w_postcode u) (choice_label (w_add_weather u))
               (mkRun (initialised st) (form u ++ [Button "Submit Trial Info"]) [])
  with
  | (Ok _, r1) =>
      summary (w_trial_name u) (Some (w_start_date u)) (Some (w_end_date u))
              (choice_label (w_add_weather u)) ClickSubmit r1
  | (Raise e, r1) => (Raise e, r1)
  end.
Proof.
  intros Ha [Hn Hp]. unfold exec. rewrite app_run, page_run, Ha. cbv zeta.
  cbn [is_submit]. rewrite submit_handler_cases.
  assert (Hm : first_missing (w_trial_name u) (Some (w_start_date u))
                 (Some (w_end_date u)) (w_postcode u) = None)
    by (apply first_missing_None; repeat split; congruence).
  rewrite Hm, app_nil_l. reflexivity.
Qed.

(** X2: a valid submission with the opt-in on "Yes", a postcode the geocoder
    resolves and a weather fetch that returns a table completes; it stores
    [submitted = True], the resolved latitude and longitude and the table,
    calls the geocoder and then the weather service once each, and the page
    it leaves shows the form, the banner, the coordinates with the map, the
    weather preview with the download button and the reset button; the
    spinner shown during the fetch is gone. *)
Theorem resolved_submission_with_weather w u st loc df :
  w_action u = ClickSubmit -> filled_in u -> w_add_weather u = Yes ->
  geocode w (w_postcode u) = Ok (Some loc) ->
  fetched w (VFloat (latitude loc)) (VFloat (longitude loc)) = Ok df ->
  let out := exec (app w u) st in
  fst out = Ok tt /\
  session (snd out) =
    <["weather_data" := VFrame df]>
      (<["lon" := VFloat (longitude loc)]>
         (<["lat" := VFloat (latitude loc)]>
            (<["submitted" := VBool true]> (initialised st)))) /\
  calls (snd out) =
    [GeocodeCall (w_postcode u);
     WeatherCall (VFloat (latitude loc)) (VFloat (longitude loc))] /\
  screen (snd out) =
    form u ++ [Button "Submit Trial Info"] ++
    banner (w_trial_name u) (Some (w_start_date u)) (Some (w_end_date u)) ++
    coordinates_block (VFloat (latitude loc)) (VFloat (longitude loc)) ++
    weather_block df ++ [Button "🔄 Reset form"].
Proof.
  intros Ha Hf Hy Hg Hdf. cbv zeta. rewrite (app_submit_run w u st Ha Hf).
  rewrite accept_run, located_cases, Hg, Hy. cbv zeta.
  cbn [is_not_None andb choice_label session screen calls].
  change (String.eqb "Yes" "Yes") with true. cbv iota. rewrite Hdf.
  rewrite summary_run. cbn [session screen calls]. store_lookup.
  cbn [truthy]. cbv zeta. rewrite weather_section_run.
  cbn [session screen calls]. change (String.eqb "Yes" "Yes") with true.
  cbv iota. store_lookup. cbn [fst snd session screen calls is_reset].
  repeat split.
Qed.

(** X3: a valid submission with the opt-in on "No" and a postcode the geocoder
    resolves completes without calling the weather service: it stores
    [submitted = True] and the coordinates, leaves [weather_data] as it was,
    and the page shows the form, the banner, the coordinates with the map and
    the reset button, but no weather preview. *)
Theorem resolved_submission_without_weather w u st loc :
  w_action u = ClickSubmit -> filled_in u -> w_add_weather u = No ->
  geocode w (w_postcode u) = Ok (Some loc) ->
  let out := exec (app w u) st in
  fst out = Ok tt /\
  session (snd out) =
    <["lon" := VFloat (longitude loc)]>
      (<["lat" := VFloat (latitude loc)]>
         (<["submitted" := VBool true]> (initialised st))) /\
  calls (snd out) = [GeocodeCall (w_postcode u)] /\
  screen (snd out) =
    form u ++ [Button "Submit Trial Info"] ++
    banner (w_trial_name u) (Some (w_start_date u)) (Some (w_end_date u)) ++
    coordinates_block (VFloat (latitude loc)) (VFloat (longitude loc)) ++
    [Button "🔄 Reset form"].
Proof.
  intros Ha Hf Hn Hg. cbv zeta. rewrite (app_submit_run w u st Ha Hf).
  rewrite accept_run, located_cases, Hg, Hn. cbv zeta.
  cbn [is_not_None andb choice_label session screen calls].
  change (String.eqb "No" "Yes") with false. cbv iota.
  rewrite summary_run. cbn [session screen calls]. store_lookup.
  cbn [truthy]. cbv zeta. rewrite weather_section_run.
  change (String.eqb "No" "Yes") with false. cbv iota.
  cbn [fst snd session screen calls is_reset].
  repeat split.
Qed.

(** X4: when the weather fetch of a valid submission raises (the service
    fails after its retries, answers with no response, or the table cannot be
    built), the exception ends the run: the spinner is taken off, no summary
    is drawn and the page stops at the submit button, but the session already
    holds [submitted = True] and the new coordinates, and [weather_data]
    keeps its previous value. *)
Theorem weather_failure_after_coordinates w u st loc e :
  w_action u = ClickSubmit -> filled_in u -> w_add_weather u = Yes ->
  geocode w (w_postcode u) = Ok (Some loc) ->
  fetched w (VFloat (latitude loc)) (VFloat (longitude loc)) = Raise e ->
  let out := exec (app w u) st in
  fst out = Raise e /\
  session (snd out) =
    <["lon" := VFloat (longitude loc)]>
      (<["lat" := VFloat (latitude loc)]>
         (<["submitted" := VBool true]> (initialised st))) /\
  session (snd out) !! "weather_data" = initialised st !! "weather_data" /\
  calls (snd out) =
    [GeocodeCall (w_postcode u);
     WeatherCall (VFloat (latitude loc)) (VFloat (longitude loc))] /\
  screen (snd out) = form u ++ [Button "Submit Trial Info"].
Proof.
  intros Ha Hf Hy Hg He. cbv zeta. rewrite (app_submit_run w u st Ha Hf).
  rewrite accept_run, located_cases, Hg, Hy. cbv zeta.
  cbn [is_not_None andb choice_label session screen calls].
  change (String.eqb "Yes" "Yes") with true. cbv iota. rewrite He.
  cbn [fst snd session screen calls]. store_lookup.
  repeat split.
Qed.

(** X5: when the geocoder raises anything but a timeout during a valid
    submission, the exception ends the run right after [submitted] was set:
    the session holds [submitted = True], no other key has changed, the
    weather service was not called and the page stops at the submit button. *)
Theorem geocoder_failure_after_submitted w u st e :
  w_action u = ClickSubmit -> filled_in u ->
  geocode w (w_postcode u) = Raise e -> e <> GeocoderTimedOut ->
  let out := exec (app w u) st in
  fst out = Raise e /\
  session (snd out) = <["submitted" := VBool true]> (initialised st) /\
  calls (snd out) = [GeocodeCall (w_postcode u)] /\
  screen (snd out) = form u ++ [Button "Submit Trial Info"].
Proof.
  intros Ha Hf Hg He. cbv zeta. rewrite (app_submit_run w u st Ha Hf).
  rewrite accept_run, located_cases, Hg. cbv zeta.
  destruct e; try contradiction; cbn [fst snd session screen calls]; done.
Qed.

(** ** When the services are called, and when [submitted] is set *)

Lemma filled_in_dec u : filled_in u \/ (w_trial_name u = "" \/ w_postcode u = "").
Proof.
  unfold filled_in.
  destruct (decide (w_trial_name u = "")), (decide (w_postcode u = "")); tauto.
Qed.

Lemma first_missing_widgets u :
  first_missing (w_trial_name u) (Some (w_start_date u)) (Some (w_end_date u))
                (w_postcode u) = None <-> filled_in u.
Proof.
  rewrite first_missing_None. unfold filled_in. split; [tauto|].
  intros [? ?]. repeat split; (assumption || discriminate).
Qed.

(** X6: the external services are called only by a submission that passes
    validation, the geocoder first and exactly once, the weather service at
    most once and only with the coordinates the geocoder has just returned and
    the opt-in on "Yes"; any other run calls nothing. *)
Theorem service_calls_only_on_valid_submit w u st :
  let cs := calls (snd (exec (app w u) st)) in
  (w_action u = ClickSubmit /\ filled_in u ->
   cs = [GeocodeCall (w_postcode u)] \/
   exists loc, geocode w (w_postcode u) = Ok (Some loc) /\
               w_add_weather u = Yes /\
               cs = [GeocodeCall (w_postcode u);
                     WeatherCall (VFloat (latitude loc)) (VFloat (longitude loc))]) /\
  (~ (w_action u = ClickSubmit /\ filled_in u) -> cs = []).
Proof.
  cbv zeta. split.
  - intros [Ha Hf]. rewrite (app_submit_run w u st Ha Hf).
    set (r0 := mkRun _ _ _).
    assert (Hc : forall x : result unit * run, calls (snd (match x with
                 | (Ok _, r1) => summary (w_trial_name u) (Some (w_start_date u))
                     (Some (w_end_date u)) (choice_label (w_add_weather u))
                     ClickSubmit r1
                 | (Raise e, r1) => (Raise e, r1) end)) = calls (snd x)).
    { intros [[[]|e] r1]; [apply summary_calls|reflexivity]. }
    rewrite Hc. subst r0. rewrite accept_run, located_cases. cbv zeta.
    cbn [session screen calls].
    destruct (geocode w (w_postcode u)) as [[loc|]|e] eqn:Hg.
    + cbn [is_not_None andb].
      destruct (String.eqb_spec (choice_label (w_add_weather u)) "Yes") as [Hy|Hn];
        [|by left].
      apply choice_label_Yes in Hy. right. exists loc.
      destruct (fetched w _ _); cbn [snd calls]; done.
    + by left.
    + destruct e; by left.
  - intros Hno. unfold exec. rewrite app_run, page_run. cbv zeta.
    destruct (w_action u) eqn:Ha; cbn [is_submit];
      try (rewrite summary_calls; reflexivity).
    rewrite submit_handler_cases.
    destruct (first_missing _ _ _ _) as [m|] eqn:Hm.
    + cbn [render]. rewrite summary_calls. reflexivity.
    + apply first_missing_widgets in Hm. tauto.
Qed.

(** X7: starting from a session that is not in the Submitted state, a run
    ends with [submitted = True] exactly when it was a click on the submit
    button with the trial name and the postcode filled in, whatever the
    geocoder and the weather service then do; otherwise [submitted] stays
    [False]. *)
Theorem submitted_set_by_valid_submit_only w u st :
  st !! "submitted" = None \/ st !! "submitted" = Some (VBool false) ->
  (step w u st !! "submitted" = Some (VBool true) <->
   w_action u = ClickSubmit /\ filled_in u) /\
  (step w u st !! "submitted" = Some (VBool true) \/
   step w u st !! "submitted" = Some (VBool false)).
Proof.
  intros Hst.
  assert (H0 : initialised st !! "submitted" = Some (VBool false))
    by (rewrite initialised_submitted; destruct Hst as [-> | ->]; reflexivity).
  destruct (step_store w u st) as (s1 & Ho & Hs).
  destruct (w_action u) eqn:Ha; cbn [is_submit is_reset] in *.
  - subst s1. destruct Hs as [-> | [? _]]; [|discriminate].
    rewrite H0. split; [split; [discriminate|intros [? _]; discriminate]|by right].
  - destruct Hs as [-> | [? _]]; [|discriminate].
    destruct Ho as [Hm | Hm Hg | loc Hm Hg Hf | loc df Hm Hg Haw Hf];
      store_lookup; try apply first_missing_widgets in Hm.
    + rewrite H0. split; [|by right]. split; [discriminate|].
      intros [_ [Hn Hp]]. destruct Hm as [?|[?|[?|?]]]; done.
    + split; [tauto|by left].
    + split; [tauto|by left].
    + split; [tauto|by left].
  - subst s1. destruct Hs as [-> | [_ ->]]; store_lookup; rewrite ?H0;
      (split; [split; [discriminate|intros [? _]; discriminate]|by right]).
Qed.

(** ** Where a run can stop *)

Lemma submit_handler_raises w name sd ed pc aw r e :
  fst (submit_handler w name sd ed pc aw r) = Raise e ->
  first_missing name sd ed pc = None /\
  ((geocode w pc = Raise e /\ e <> GeocoderTimedOut) \/
   exists loc, geocode w pc = Ok (Some loc) /\ aw = "Yes" /\
               fetched w (VFloat (latitude loc)) (VFloat (longitude loc)) = Raise e).
Proof.
  rewrite submit_handler_cases.
  destruct (first_missing name sd ed pc) as [m|]; [discriminate|].
  rewrite accept_run, located_cases. cbv zeta. intros He. split; [reflexivity|].
  destruct (geocode w pc) as [[loc|]|e'] eqn:Hg.
  - cbn [is_not_None andb] in He.
    destruct (String.eqb_spec aw "Yes") as [->|_]; [|discriminate].
    destruct (fetched w _ _) as [df|e''] eqn:Hf; [discriminate|].
    injection He as <-. right. eauto.
  - discriminate.
  - left. destruct e'; try discriminate; injection He as <-; done.
Qed.

Lemma summary_raises name sd ed aw a r e :
  session_ok (session r) -> started (session r) ->
  fst (summary name sd ed aw a r) = Raise e ->
  e = AttributeError "lat" /\
  session r !! "lat" = None /\
  session r !! "submitted" = Some (VBool true) /\
  session (snd (summary name sd ed aw a r)) = session r.
Proof.
  destruct r as [s scr c]. cbn [session].
  intros (H1 & H2 & H3 & H4 & H5) [[vs Hs] [vw Hw]].
  rewrite summary_run. cbn [session screen calls]. rewrite Hs.
  destruct (H1 vs Hs) as [b ->]. cbn [truthy]. destruct b; [|discriminate].
  cbv zeta. destruct (s !! "lat") as [lat|] eqn:Elat.
  - destruct (proj1 H5 ltac:(eauto)) as [lon Elon]. rewrite Elon.
    rewrite weather_section_run. cbn [session screen calls]. rewrite Hw.
    destruct (H2 vw Hw) as [-> | (df & -> & _)];
      destruct (String.eqb aw "Yes"); discriminate.
  - intros [= <-]. done.
Qed.

(** X8: in a session that started empty, a run can stop with an exception in
    two ways only: the summary reads [st.session_state.lat] while the session
    is marked submitted but holds no coordinates ([AttributeError]), or a valid
    submission saw the geocoder raise something other than a timeout or saw
    the weather fetch raise.  In particular the run never fails on reading
    [submitted], [lon] or [weather_data], nor on the table's [head]. *)
Theorem run_raises_only w u st e :
  reachable st ->
  fst (exec (app w u) st) = Raise e ->
  (e = AttributeError "lat" /\
   step w u st !! "lat" = None /\
   step w u st !! "submitted" = Some (VBool true)) \/
  (w_action u = ClickSubmit /\ filled_in u /\
   ((geocode w (w_postcode u) = Raise e /\ e <> GeocoderTimedOut) \/
    exists loc, geocode w (w_postcode u) = Ok (Some loc) /\
                w_add_weather u = Yes /\
                fetched w (VFloat (latitude loc)) (VFloat (longitude loc))
                = Raise e)).
Proof.
  intros Hr. apply reachable_invariants in Hr. destruct Hr as (Hok & _ & _).
  apply session_ok_initialised in Hok.
  pose proof (started_initialised st) as Hst.
  unfold step, exec. rewrite app_run, page_run. cbv zeta.
  set (r0 := mkRun (initialised st) _ []).
  set (aw := choice_label (w_add_weather u)).
  destruct (w_action u) eqn:Ha; cbn [is_submit].
  - intros He. left. apply summary_raises in He; [|exact Hok|exact Hst].
    destruct He as (-> & Hl & Hs & ->). done.
  - pose proof (submit_handler_outcome w (w_trial_name u) (Some (w_start_date u))
                  (Some (w_end_date u)) (w_postcode u) aw r0) as Ho.
    pose proof (submit_handler_raises w (w_trial_name u) (Some (w_start_date u))
                  (Some (w_end_date u)) (w_postcode u) aw r0) as Hh.
    destruct (submit_handler _ _ _ _ _ _ _) as [[[]|e'] r1];
      cbn [fst snd] in *; intros He.
    + left. apply summary_raises in He;
        [|eapply session_ok_outcome; eauto|eapply started_outcome; eauto].
      destruct He as (-> & Hl & Hs & ->). done.
    + injection He as ->. right. destruct (Hh e eq_refl) as [Hm Hc].
      apply first_missing_widgets in Hm. split; [reflexivity|]. split; [exact Hm|].
      destruct Hc as [Hc|(loc & Hg & Hy & Hf)]; [by left|right].
      exists loc. apply choice_label_Yes in Hy. done.
  - intros He. left. apply summary_raises in He; [|exact Hok|exact Hst].
    destruct He as (-> & Hl & Hs & ->). done.
Qed.

(** ** Resubmitting and resetting *)

Lemma reachable_with_lat st lat :
  reachable st -> st !! "lat" = Some lat ->
  initialised st = st /\ session_ok st /\
  exists lon, st !! "lon" = Some lon.
Proof.
  intros Hr Hl. destruct (reachable_invariants st Hr) as (Hok & _ & [->|[Hs Hw]]).
  - by rewrite lookup_empty in Hl.
  - split; [by apply initialised_id|]. split; [exact Hok|].
    destruct Hok as (_ & _ & _ & _ & H5). apply H5. eauto.
Qed.

(** X9: when a session that already holds coordinates is resubmitted with a
    postcode that finds no match or times out, the run completes, the store
    changes in [submitted] only, and the summary is drawn with the new trial
    name next to the coordinates of the earlier submission; with the opt-in on
    "Yes" it also shows the weather table fetched for that earlier postcode. *)
Theorem unresolved_resubmission_keeps_coordinates w u st lat lon :
  reachable st ->
  st !! "lat" = Some lat -> st !! "lon" = Some lon ->
  w_action u = ClickSubmit -> filled_in u ->
  geocode w (w_postcode u) = Ok None \/
  geocode w (w_postcode u) = Raise GeocoderTimedOut ->
  let out := exec (app w u) st in
  fst out = Ok tt /\
  session (snd out) = <["submitted" := VBool true]> st /\
  calls (snd out) = [GeocodeCall (w_postcode u)] /\
  screen (snd out) =
    form u ++ [Button "Submit Trial Info"] ++
    banner (w_trial_name u) (Some (w_start_date u)) (Some (w_end_date u)) ++
    coordinates_block lat lon ++
    match w_add_weather u, weather_of st with
    | Yes, Some df => weather_block df
    | _, _ => []
    end ++ [Button "🔄 Reset form"].
Proof.
  intros Hr Hlat Hlon Ha Hf Hg.
  destruct (reachable_with_lat st lat Hr Hlat) as (Hi & Hok & _).
  destruct (reachable_invariants st Hr) as (_ & _ & [->|[_ [vw Hw]]]);
    [by rewrite lookup_empty in Hlat|].
  cbv zeta. rewrite (app_submit_run w u st Ha Hf), Hi.
  rewrite accept_run, located_cases. cbv zeta. cbn [session screen calls].
  assert (Hl : match geocode w (w_postcode u) with
               | Ok (Some loc) => Ok (VFloat (latitude loc), VFloat (longitude loc))
               | Ok None => Ok (VNone, VNone)
               | Raise GeocoderTimedOut => Ok (VNone, VNone)
               | Raise e => Raise e
               end = Ok (VNone, VNone)) by (destruct Hg as [-> | ->]; reflexivity).
  rewrite Hl. cbn [is_not_None andb]. rewrite summary_run.
  cbn [session screen calls]. store_lookup. rewrite Hlat, Hlon.
  cbn [truthy]. cbv zeta. rewrite weather_section_run.
  cbn [session screen calls]. store_lookup. unfold weather_of. rewrite Hw.
  destruct Hok as (_ & H2 & _). destruct (H2 vw Hw) as [-> | (df & -> & _)];
    destruct (w_add_weather u); cbn [choice_label];
    [change (String.eqb "No" "Yes") with false
    |change (String.eqb "Yes" "Yes") with true
    |change (String.eqb "No" "Yes") with false
    |change (String.eqb "Yes" "Yes") with true];
    cbv iota; cbn [fst snd session screen calls is_reset];
    repeat split; rewrite <- ?app_assoc; reflexivity.
Qed.

Lemma reset_run w u st lat :
  reachable st -> st !! "submitted" = Some (VBool true) ->
  st !! "lat" = Some lat -> w_action u = ClickReset ->
  fst (exec (app w u) st) = Ok tt /\
  step w u st = <["submitted" := VBool false]> st.
Proof.
  intros Hr Hs Hlat Ha.
  destruct (reachable_with_lat st lat Hr Hlat) as (Hi & Hok & lon & Hlon).
  destruct (reachable_invariants st Hr) as (_ & _ & [->|[_ [vw Hw]]]);
    [by rewrite lookup_empty in Hlat|].
  unfold step, exec. rewrite app_run, page_run, Ha, Hi. cbv zeta.
  cbn [is_submit]. rewrite summary_run. cbn [session screen calls].
  rewrite Hs, Hlat, Hlon. cbn [truthy]. cbv zeta. rewrite weather_section_run.
  cbn [session screen calls]. rewrite Hw.
  destruct Hok as (_ & H2 & _). destruct (H2 vw Hw) as [-> | (df & -> & _)];
    destruct (String.eqb _ "Yes"); done.
Qed.

(** X10: after the reset button was clicked in a session showing its summary,
    the store is the old one with [submitted = False] (coordinates and weather
    still in it), and any following run that is not a submission draws the
    form and the submit button only, completes and leaves the store as it
    is. *)
Theorem after_reset_only_form w u w' u' st lat :
  reachable st -> st !! "submitted" = Some (VBool true) ->
  st !! "lat" = Some lat ->
  w_action u = ClickReset -> w_action u' <> ClickSubmit ->
  let st1 := step w u st in
  let out := exec (app w' u') st1 in
  st1 = <["submitted" := VBool false]> st /\
  st1 !! "lat" = Some lat /\
  fst out = Ok tt /\
  session (snd out) = st1 /\
  screen (snd out) = form u' ++ [Button "Submit Trial Info"].
Proof.
  intros Hr Hs Hlat Ha Ha'. cbv zeta.
  destruct (reset_run w u st lat Hr Hs Hlat Ha) as [_ Hst1]. rewrite Hst1.
  destruct (reachable_invariants st Hr) as (_ & _ & [->|[_ Hw]]);
    [by rewrite lookup_empty in Hlat|].
  split; [reflexivity|]. split; [by store_lookup|].
  unfold exec. rewrite app_run, page_run. cbv zeta.
  rewrite initialised_id by (store_lookup; eauto).
  assert (Hns : is_submit (w_action u') = false)
    by (destruct (w_action u'); done).
  rewrite Hns, summary_run. cbn [session screen calls]. store_lookup.
  cbn [truthy fst snd session screen]. by rewrite app_nil_l.
Qed.

(** ** Session start *)

(** X11: lines 63-66 never overwrite a key that is already set, leave every
    other key alone, guarantee that [submitted] and [weather_data] exist
    afterwards (as [False] and [None] when they were missing), draw nothing,
    call nothing and never raise; running them again changes nothing. *)
Theorem init_session_keeps_existing st :
  let out := exec init_session st in
  fst out = Ok tt /\ screen (snd out) = [] /\ calls (snd out) = [] /\
  (forall k v, st !! k = Some v -> session (snd out) !! k = Some v) /\
  (forall k, k <> "submitted" -> k <> "weather_data" ->
             session (snd out) !! k = st !! k) /\
  (st !! "submitted" = None -> session (snd out) !! "submitted" = Some (VBool false)) /\
  (st !! "weather_data" = None -> session (snd out) !! "weather_data" = Some VNone) /\
  exec init_session (session (snd out)) = out.
Proof.
  cbv zeta. unfold exec. rewrite !init_session_run.
  cbn [fst snd session screen calls].
  split; [reflexivity|]. split; [reflexivity|]. split; [reflexivity|].
  split; [|split; [|split; [|split]]].
  - intros k v Hk. destruct (decide (k = "submitted")) as [->|Hk1].
    { by rewrite initialised_submitted, Hk. }
    destruct (decide (k = "weather_data")) as [->|Hk2].
    { by rewrite initialised_weather, Hk. }
    by rewrite initialised_lookup.
  - intros k Hk1 Hk2. by apply initialised_lookup.
  - intros H. by rewrite initialised_submitted, H.
  - intros H. by rewrite initialised_weather, H.
  - f_equal. f_equal. apply initialised_id; apply started_initialised.
Qed.

(** ** The page always opens with the form *)

Lemma weather_section_grows aw r :
  exists out, screen (snd (weather_section aw r)) = screen r ++ out.
Proof.
  rewrite weather_section_run. destruct (String.eqb aw "Yes");
    [|exists []; by rewrite app_nil_r].
  destruct (session r !! "weather_data") as [[| b | f | df]|]; cbn [snd screen];
    eauto; exists []; by rewrite app_nil_r.
Qed.

Lemma summary_grows name sd ed aw a r :
  exists out, screen (snd (summary name sd ed aw a r)) = screen r ++ out.
Proof.
  destruct r as [s scr c]. rewrite summary_run. cbn [session screen calls].
  assert (Hnil : exists out : list element, scr = scr ++ out)
    by (exists []; by rewrite app_nil_r).
  destruct (s !! "submitted") as [v|]; [|exact Hnil].
  destruct (truthy v) as [[|]|e]; [|exact Hnil|exact Hnil].
  cbv zeta. destruct (s !! "lat"); [|cbn [snd screen]; eauto].
  destruct (s !! "lon"); [|cbn [snd screen]; eauto].
  match goal with |- context [weather_section aw ?r2] =>
    destruct (weather_section_grows aw r2) as [out Hout];
    destruct (weather_section aw r2) as [[[]|e] r3]
  end; cbn [snd screen] in *; rewrite Hout, <- ?app_assoc; eauto.
Qed.

Lemma submit_handler_grows w name sd ed pc aw r :
  exists out, screen (snd (submit_handler w name sd ed pc aw r)) = screen r ++ out.
Proof.
  rewrite submit_handler_cases. destruct (first_missing name sd ed pc) as [m|].
  - cbn [render snd screen]. eauto.
  - rewrite accept_run. cbv zeta.
    assert (Hnil : exists out : list element, screen r = screen r ++ out)
      by (exists []; by rewrite app_nil_r).
    destruct (located w pc) as [[lat lon]|e]; [|exact Hnil].
    destruct (is_not_None lat && is_not_None lon); [|exact Hnil].
    destruct (String.eqb aw "Yes"); [|exact Hnil].
    destruct (fetched w lat lon); cbn [snd screen]; eauto.
Qed.

(** X12: every run draws the complete form (title, trial name, the two date
    inputs, postcode, the weather radio) and then the submit button before
    anything else, in this order, whatever the session holds, whatever the
    user did and whether or not the run later stops with an exception. *)
Theorem form_always_drawn w u st :
  exists rest,
    screen (snd (exec (app w u) st))
    = form u ++ Button "Submit Trial Info" :: rest.
Proof.
  unfold exec. rewrite app_run, page_run. cbv zeta. rewrite app_nil_l.
  set (r0 := mkRun (initialised st) _ []).
  assert (H0 : forall out, screen r0 ++ out
               = form u ++ Button "Submit Trial Info" :: out)
    by (intros out; subst r0; cbn [screen]; by rewrite <- app_assoc).
  destruct (is_submit (w_action u)).
  - destruct (submit_handler_grows w (w_trial_name u) (Some (w_start_date u))
                (Some (w_end_date u)) (w_postcode u)
                (choice_label (w_add_weather u)) r0) as [out1 H1].
    destruct (submit_handler _ _ _ _ _ _ _) as [[[]|e] r1]; cbn [snd] in *.
    + destruct (summary_grows (w_trial_name u) (Some (w_start_date u))
                  (Some (w_end_date u)) (choice_label (w_add_weather u))
                  (w_action u) r1) as [out2 H2].
      exists (out1 ++ out2). by rewrite H2, H1, <- app_assoc, H0.
    + exists out1. by rewrite H1, H0.
  - destruct (summary_grows (w_trial_name u) (Some (w_start_date u))
                (Some (w_end_date u)) (choice_label (w_add_weather u))
                (w_action u) r0) as [out2 H2].
    exists out2. by rewrite H2, H0.
Qed.

(** ** The table built by [fetch_weather_data] *)

(** X13: a table returned by [fetch_weather_data] is built from the first
    response only; its [temperature_2m], [cloud_cover] and [precipitation]
    columns are that response's variables 0, 1 and 2, unchanged and in this
    order, and all four columns have the same number of rows. *)
Theorem fetched_table_columns w lat lon h rest df st :
  weather_api w lat lon = Ok (h :: rest) ->
  fst (exec (fetch_weather_data w lat lon) st) = Ok df ->
  col_temperature_2m df = Variables h 0 /\
  col_cloud_cover df = Variables h 1 /\
  col_precipitation df = Variables h 2 /\
  rectangular df.
Proof.
  intros Hw. unfold exec. rewrite fetch_weather_data_run. cbn [fst].
  intros Hdf. pose proof (fetched_rectangular _ _ _ _ Hdf) as Hrect.
  rewrite fetched_cases, Hw in Hdf.
  destruct (to_datetime (Time h)) as [a|e]; [|discriminate].
  destruct (to_datetime (TimeEnd h)) as [b|e]; [|discriminate].
  destruct (Timedelta (Interval h)) as [s|e]; [|discriminate].
  destruct (date_range_left a b s) as [d|e]; [|discriminate].
  apply make_DataFrame_Ok in Hdf. destruct Hdf as [_ ->]. done.
Qed.

(** X14: [fetch_weather_data] touches neither the session nor the page and
    calls the weather service exactly once with the coordinates it was given;
    an exception of the service is passed on unchanged, an empty list of
    responses raises [IndexError], and (for a positive interval and a window
    with start before end) value arrays that do not all have
    ceil((end - start) / interval) entries raise [ValueError]. *)
Theorem fetch_weather_data_failures w lat lon st :
  let out := exec (fetch_weather_data w lat lon) st in
  session (snd out) = st /\ screen (snd out) = [] /\
  calls (snd out) = [WeatherCall lat lon] /\
  (forall e, weather_api w lat lon = Raise e -> fst out = Raise e) /\
  (weather_api w lat lon = Ok [] -> fst out = Raise IndexError) /\
  (forall h rest,
     weather_api w lat lon = Ok (h :: rest) ->
     0 < Interval h -> Time h < TimeEnd h ->
     ~ (length (Variables h 0) = expected_rows h /\
        length (Variables h 1) = expected_rows h /\
        length (Variables h 2) = expected_rows h) ->
     fst out = Raise ValueError).
Proof.
  cbv zeta. unfold exec. rewrite fetch_weather_data_run.
  cbn [fst snd session screen calls app].
  split; [reflexivity|]. split; [reflexivity|]. split; [reflexivity|].
  split; [|split].
  - intros e He. by rewrite fetched_cases, He.
  - intros He. by rewrite fetched_cases, He.
  - intros h rest Hw Hi Ht Hl.
    rewrite (fetched_hourly w lat lon h rest Hw Hi Ht).
    destruct (window_in_bounds h); [|reflexivity]. unfold make_DataFrame.
    rewrite bool_decide_eq_false_2; [reflexivity|].
    by rewrite expected_dates_length.
Qed.

(** ** Submitting twice, and the keys of the store *)

Lemma step_submit w u st :
  w_action u = ClickSubmit ->
  step w u st =
  session (snd (submit_handler w (w_trial_name u) (Some (w_start_date u))
                  (Some (w_end_date u)) (w_postcode u)
                  (choice_label (w_add_weather u))
                  (mkRun (initialised st)
                         (form u ++ [Button "Submit Trial Info"]) []))).
Proof.
  intros Ha. unfold step, exec. rewrite app_run, page_run, Ha, app_nil_l.
  cbv zeta. cbn [is_submit].
  destruct (submit_handler _ _ _ _ _ _ _) as [[[]|e] r1]; [|reflexivity].
  by apply summary_session.
Qed.

Lemma accept_twice w pc aw s scr c scr' c' :
  session (snd (accept w pc aw
     (mkRun (session (snd (accept w pc aw (mkRun s scr c)))) scr' c')))
  = session (snd (accept w pc aw (mkRun s scr c))).
Proof.
  rewrite (accept_run w pc aw (mkRun s scr c)). cbv zeta.
  cbn [session screen calls].
  destruct (located w pc) as [[lat lon]|e] eqn:Hl.
  - destruct (is_not_None lat && is_not_None lon) eqn:Hn.
    + destruct (String.eqb aw "Yes") eqn:Hy.
      * destruct (fetched w lat lon) as [df|e] eqn:Hf; cbn [snd session];
          rewrite accept_run, Hl; cbv zeta; rewrite Hn, Hy, Hf;
          cbn [snd session]; apply map_eq; intros k; rewrite !lookup_insert;
          repeat case_decide; done.
      * cbn [snd session]. rewrite accept_run, Hl. cbv zeta. rewrite Hn, Hy.
        cbn [snd session]. apply map_eq. intros k. rewrite !lookup_insert.
        repeat case_decide; done.
    + cbn [snd session]. rewrite accept_run, Hl. cbv zeta. rewrite Hn.
      cbn [snd session]. apply insert_insert_eq.
  - cbn [snd session]. rewrite accept_run, Hl. cbv zeta.
    cbn [snd session]. apply insert_insert_eq.
Qed.

Lemma started_accept w pc aw r :
  started (session r) -> started (session (snd (accept w pc aw r))).
Proof.
  intros Hs. rewrite accept_run. cbv zeta.
  destruct (located w pc) as [[lat lon]|e];
    [|cbn [snd session]; by apply started_insert].
  destruct (is_not_None lat && is_not_None lon);
    [|cbn [snd session]; by apply started_insert].
  destruct (String.eqb aw "Yes");
    [destruct (fetched w lat lon)|]; cbn [snd session];
    repeat apply started_insert; exact Hs.
Qed.

(** X15: submitting the same form twice in a row, with the services answering
    the same, leaves the store exactly as the first submission left it:
    the second click changes nothing more. *)
Theorem resubmission_idempotent w u st :
  w_action u = ClickSubmit ->
  step w u (step w u st) = step w u st.
Proof.
  intros Ha. rewrite (step_submit w u (step w u st) Ha).
  rewrite (step_submit w u st Ha), !submit_handler_cases.
  destruct (first_missing _ _ _ _) as [m|].
  - cbn [render snd session].
    apply initialised_id; apply started_initialised.
  - set (r0 := mkRun (initialised st) _ []).
    rewrite initialised_id
      by (apply started_accept; subst r0; apply started_initialised).
    subst r0. apply accept_twice.
Qed.

(** X16: a run writes to no key other than [submitted], [weather_data], [lat]
    and [lon], and it never removes a key: whatever was set before the run is
    still set after it. *)
Theorem store_keys_kept w u st k :
  (k ∉ script_keys -> step w u st !! k = st !! k) /\
  (is_Some (st !! k) -> is_Some (step w u st !! k)).
Proof.
  destruct (step_store w u st) as (s1 & Ho & Hs).
  assert (Hi : is_Some (st !! k) -> is_Some (initialised st !! k)).
  { intros [v Hv]. destruct (decide (k = "submitted")) as [->|H1].
    { rewrite initialised_submitted, Hv. eauto. }
    destruct (decide (k = "weather_data")) as [->|H2].
    { rewrite initialised_weather, Hv. eauto. }
    rewrite initialised_lookup by done. eauto. }
  assert (Hins : forall (s : gmap string value) k' v,
             is_Some (s !! k) -> is_Some (<[k' := v]> s !! k)).
  { intros s k' v Hk. rewrite lookup_insert. case_decide; eauto. }
  split.
  - intros Hk. unfold script_keys in Hk.
    assert (k <> "submitted" /\ k <> "weather_data" /\ k <> "lat" /\ k <> "lon")
      as (K1 & K2 & K3 & K4)
      by (repeat split; intros ->; apply Hk; apply list_elem_of_In; cbn; tauto).
    assert (H1 : s1 !! k = st !! k).
    { destruct (is_submit (w_action u));
        [|subst; by apply initialised_lookup].
      destruct Ho; rewrite ?lookup_insert_ne by done;
        by apply initialised_lookup. }
    destruct Hs as [-> | [_ ->]]; rewrite ?lookup_insert_ne by done; exact H1.
  - intros Hk. apply Hi in Hk.
    assert (H1 : is_Some (s1 !! k)).
    { destruct (is_submit (w_action u)); [|by subst].
      destruct Ho; auto. }
    destruct Hs as [-> | [_ ->]]; auto.
Qed.

(** ** The further properties at sample inputs *)

Lemma reachable_session_ok_witness :
  reachable (submitted_store Yes) /\
  session_ok (submitted_store Yes) /\ coordinates_kept (submitted_store Yes) /\
  (submitted_store Yes = ∅ \/ started (submitted_store Yes)).
Proof.
  split; [exact (reach_step bristol_world _ ∅ reach_start)|].
  apply (reachable_session_ok (submitted_store Yes)).
  exact (reach_step bristol_world _ ∅ reach_start).
Defined.

Lemma resolved_submission_with_weather_witness :
  w_action (greenhouse "BS1 1AA" Yes ClickSubmit) = ClickSubmit /\
  filled_in (greenhouse "BS1 1AA" Yes ClickSubmit) /\
  geocode bristol_world "BS1 1AA" = Ok (Some (mkLocation f_51_45 f_m2_59)) /\
  fetched bristol_world (VFloat f_51_45) (VFloat f_m2_59) = Ok two_days_table /\
  let out := exec (app bristol_world (greenhouse "BS1 1AA" Yes ClickSubmit)) ∅ in
  fst out = Ok tt /\
  session (snd out) =
    <["weather_data" := VFrame two_days_table]>
      (<["lon" := VFloat f_m2_59]>
         (<["lat" := VFloat f_51_45]>
            (<["submitted" := VBool true]> (initialised ∅)))).
Proof.
  assert (Hf : filled_in (greenhouse "BS1 1AA" Yes ClickSubmit))
    by (split; discriminate).
  assert (Hd : fetched bristol_world (VFloat f_51_45) (VFloat f_m2_59)
               = Ok two_days_table) by (vm_compute; reflexivity).
  split; [reflexivity|]. split; [exact Hf|]. split; [reflexivity|].
  split; [exact Hd|].
  destruct (resolved_submission_with_weather bristol_world
              (greenhouse "BS1 1AA" Yes ClickSubmit) ∅
              (mkLocation f_51_45 f_m2_59) two_days_table
              eq_refl Hf eq_refl eq_refl Hd) as (H1 & H2 & _).
  exact (conj H1 H2).
Defined.

Lemma resolved_submission_without_weather_witness :
  w_action (greenhouse "BS1 1AA" No ClickSubmit) = ClickSubmit /\
  filled_in (greenhouse "BS1 1AA" No ClickSubmit) /\
  geocode bristol_world "BS1 1AA" = Ok (Some (mkLocation f_51_45 f_m2_59)) /\
  let out := exec (app bristol_world (greenhouse "BS1 1AA" No ClickSubmit)) ∅ in
  fst out = Ok tt /\ calls (snd out) = [GeocodeCall "BS1 1AA"].
Proof.
  assert (Hf : filled_in (greenhouse "BS1 1AA" No ClickSubmit))
    by (split; discriminate).
  split; [reflexivity|]. split; [exact Hf|]. split; [reflexivity|].
  destruct (resolved_submission_without_weather bristol_world
              (greenhouse "BS1 1AA" No ClickSubmit) ∅
              (mkLocation f_51_45 f_m2_59)
              eq_refl Hf eq_refl eq_refl) as (H1 & _ & H3 & _).
  exact (conj H1 H3).
Defined.

Lemma weather_failure_after_coordinates_witness :
  filled_in (greenhouse "BS1 1AA" Yes ClickSubmit) /\
  geocode stormy_world "BS1 1AA" = Ok (Some (mkLocation f_51_45 f_m2_59)) /\
  fetched stormy_world (VFloat f_51_45) (VFloat f_m2_59)
  = Raise OpenMeteoRequestsError /\
  let out := exec (app stormy_world (greenhouse "BS1 1AA" Yes ClickSubmit)) ∅ in
  fst out = Raise OpenMeteoRequestsError /\
  session (snd out) !! "weather_data" = initialised ∅ !! "weather_data".
Proof.
  assert (Hf : filled_in (greenhouse "BS1 1AA" Yes ClickSubmit))
    by (split; discriminate).
  split; [exact Hf|]. split; [reflexivity|]. split; [reflexivity|].
  destruct (weather_failure_after_coordinates stormy_world
              (greenhouse "BS1 1AA" Yes ClickSubmit) ∅
              (mkLocation f_51_45 f_m2_59) OpenMeteoRequestsError
              eq_refl Hf eq_refl eq_refl eq_refl) as (H1 & _ & H3 & _).
  exact (conj H1 H3).
Defined.

Lemma geocoder_failure_after_submitted_witness :
  filled_in (greenhouse "BS1 1AA" Yes ClickSubmit) /\
  geocode offline_world "BS1 1AA" = Raise GeocoderUnavailable /\
  GeocoderUnavailable <> GeocoderTimedOut /\
  let out := exec (app offline_world (greenhouse "BS1 1AA" Yes ClickSubmit)) ∅ in
  fst out = Raise GeocoderUnavailable /\
  session (snd out) = <["submitted" := VBool true]> (initialised ∅).
Proof.
  assert (Hf : filled_in (greenhouse "BS1 1AA" Yes ClickSubmit))
    by (split; discriminate).
  assert (Hne : GeocoderUnavailable <> GeocoderTimedOut) by discriminate.
  split; [exact Hf|]. split; [reflexivity|]. split; [exact Hne|].
  destruct (geocoder_failure_after_submitted offline_world
              (greenhouse "BS1 1AA" Yes ClickSubmit) ∅ GeocoderUnavailable
              eq_refl Hf eq_refl Hne) as (H1 & H2 & _).
  exact (conj H1 H2).
Defined.

Lemma submitted_set_by_valid_submit_only_witness :
  ((∅ : gmap string value) !! "submitted" = None \/
   (∅ : gmap string value) !! "submitted" = Some (VBool false)) /\
  (step bristol_world (greenhouse "" Yes ClickSubmit) ∅ !! "submitted"
   = Some (VBool true) <->
   w_action (greenhouse "" Yes ClickSubmit) = ClickSubmit /\
   filled_in (greenhouse "" Yes ClickSubmit)).
Proof.
  split; [left; reflexivity|].
  apply (submitted_set_by_valid_submit_only bristol_world
           (greenhouse "" Yes ClickSubmit) ∅).
  left; reflexivity.
Defined.

Lemma run_raises_only_witness :
  reachable ∅ /\
  fst (exec (app offline_world (greenhouse "BS1 1AA" No ClickSubmit)) ∅)
  = Raise GeocoderUnavailable /\
  ((GeocoderUnavailable = AttributeError "lat" /\
    step offline_world (greenhouse "BS1 1AA" No ClickSubmit) ∅ !! "lat" = None /\
    step offline_world (greenhouse "BS1 1AA" No ClickSubmit) ∅ !! "submitted"
    = Some (VBool true)) \/
   (w_action (greenhouse "BS1 1AA" No ClickSubmit) = ClickSubmit /\
    filled_in (greenhouse "BS1 1AA" No ClickSubmit) /\
    ((geocode offline_world "BS1 1AA" = Raise GeocoderUnavailable /\
      GeocoderUnavailable <> GeocoderTimedOut) \/
     exists loc, geocode offline_world "BS1 1AA" = Ok (Some loc) /\
                 w_add_weather (greenhouse "BS1 1AA" No ClickSubmit) = Yes /\
                 fetched offline_world (VFloat (latitude loc))
                         (VFloat (longitude loc)) = Raise GeocoderUnavailable))).
Proof.
  split; [exact reach_start|]. split; [vm_compute; reflexivity|].
  apply (run_raises_only offline_world (greenhouse "BS1 1AA" No ClickSubmit) ∅
           GeocoderUnavailable reach_start).
  vm_compute; reflexivity.
Defined.

Lemma unresolved_resubmission_keeps_coordinates_witness :
  reachable (submitted_store Yes) /\
  submitted_store Yes !! "lat" = Some (VFloat f_51_45) /\
  submitted_store Yes !! "lon" = Some (VFloat f_m2_59) /\
  filled_in (greenhouse "ZZZZZZ" Yes ClickSubmit) /\
  geocode bristol_world "ZZZZZZ" = Ok None /\
  let out := exec (app bristol_world (greenhouse "ZZZZZZ" Yes ClickSubmit))
                  (submitted_store Yes) in
  fst out = Ok tt /\
  session (snd out) = <["submitted" := VBool true]> (submitted_store Yes).
Proof.
  assert (Hr : reachable (submitted_store Yes))
    by exact (reach_step bristol_world _ ∅ reach_start).
  assert (Hlat : submitted_store Yes !! "lat" = Some (VFloat f_51_45))
    by (vm_compute; reflexivity).
  assert (Hlon : submitted_store Yes !! "lon" = Some (VFloat f_m2_59))
    by (vm_compute; reflexivity).
  assert (Hf : filled_in (greenhouse "ZZZZZZ" Yes ClickSubmit))
    by (split; discriminate).
  split; [exact Hr|]. split; [exact Hlat|]. split; [exact Hlon|].
  split; [exact Hf|]. split; [reflexivity|].
  destruct (unresolved_resubmission_keeps_coordinates bristol_world
              (greenhouse "ZZZZZZ" Yes ClickSubmit) (submitted_store Yes)
              (VFloat f_51_45) (VFloat f_m2_59) Hr Hlat Hlon eq_refl Hf
              (or_introl eq_refl)) as (H1 & H2 & _).
  exact (conj H1 H2).
Defined.

Lemma after_reset_only_form_witness :
  reachable (submitted_store Yes) /\
  submitted_store Yes !! "submitted" = Some (VBool true) /\
  submitted_store Yes !! "lat" = Some (VFloat f_51_45) /\
  w_action (greenhouse "BS1 1AA" No NoAction) <> ClickSubmit /\
  let st1 := step bristol_world (greenhouse "BS1 1AA" Yes ClickReset)
                  (submitted_store Yes) in
  let out := exec (app bristol_world (greenhouse "BS1 1AA" No NoAction)) st1 in
  st1 = <["submitted" := VBool false]> (submitted_store Yes) /\
  st1 !! "lat" = Some (VFloat f_51_45) /\
  fst out = Ok tt /\
  session (snd out) = st1 /\
  screen (snd out) = form (greenhouse "BS1 1AA" No NoAction)
                     ++ [Button "Submit Trial Info"].
Proof.
  assert (Hr : reachable (submitted_store Yes))
    by exact (reach_step bristol_world _ ∅ reach_start).
  assert (Hs : submitted_store Yes !! "submitted" = Some (VBool true))
    by (vm_compute; reflexivity).
  assert (Hlat : submitted_store Yes !! "lat" = Some (VFloat f_51_45))
    by (vm_compute; reflexivity).
  assert (Hn : w_action (greenhouse "BS1 1AA" No NoAction) <> ClickSubmit)
    by discriminate.
  split; [exact Hr|]. split; [exact Hs|]. split; [exact Hlat|].
  split; [exact Hn|].
  exact (after_reset_only_form bristol_world (greenhouse "BS1 1AA" Yes ClickReset)
           bristol_world (greenhouse "BS1 1AA" No NoAction) (submitted_store Yes)
           (VFloat f_51_45) Hr Hs Hlat eq_refl Hn).
Defined.

Lemma fetched_table_columns_witness :
  weather_api bristol_world (VFloat f_51_45) (VFloat f_m2_59) = Ok [two_days] /\
  fst (exec (fetch_weather_data bristol_world (VFloat f_51_45) (VFloat f_m2_59)) ∅)
  = Ok two_days_table /\
  col_temperature_2m two_days_table = Variables two_days 0 /\
  col_cloud_cover two_days_table = Variables two_days 1 /\
  col_precipitation two_days_table = Variables two_days 2 /\
  rectangular two_days_table.
Proof.
  assert (Hd : fst (exec (fetch_weather_data bristol_world (VFloat f_51_45)
                            (VFloat f_m2_59)) ∅) = Ok two_days_table)
    by (vm_compute; reflexivity).
  split; [reflexivity|]. split; [exact Hd|].
  exact (fetched_table_columns bristol_world (VFloat f_51_45) (VFloat f_m2_59)
           two_days [] two_days_table ∅ eq_refl Hd).
Defined.

Lemma resubmission_idempotent_witness :
  w_action (greenhouse "BS1 1AA" Yes ClickSubmit) = ClickSubmit /\
  step bristol_world (greenhouse "BS1 1AA" Yes ClickSubmit) (submitted_store Yes)
  = submitted_store Yes.
Proof.
  split; [reflexivity|].
  exact (resubmission_idempotent bristol_world
           (greenhouse "BS1 1AA" Yes ClickSubmit) ∅ eq_refl).
Defined.
